(** * A shallow embedding of the vulnerability scanner

    The development follows the Python sources:
    - [ai_enhancement.py]: class [AIBugPredictor] (pattern scan, severity and
      confidence scores, complexity metrics, risk score);
    - [main.py]: class [ModernBugPredictionGUI] (line-by-line scan, severity
      levels, normalisation of the findings of the external tool);
    - [enhanced_semgrep_rules.py]: class [EnhancedSemgrepAnalyzer] (temporary
      rules file, invocation of the external tool).

    Conventions.  Python [str] values are Rocq strings over 8-bit characters,
    read as ASCII text: code points from 128 on have no case and are neither
    white space nor word characters.  Python [dict]s with a fixed set of
    string keys that are only looked up are [gmap]s; a [dict] that is
    iterated is an association list, in insertion order.

    Python [float] values have two readings.  In the module [Binary64] they
    are IEEE 754 binary64 numbers, the primitive floats of Rocq, and every
    operation rounds as the machine does: this reading says what a score
    is, to the last digit.  In the module [AIBugPredictor] they are exact
    rationals ([Q]), the constants of the source ([0.3], [0.85], ...) being
    the rationals they denote: this reading states the properties of order
    and size of the scores. *)

From Stdlib Require Import String Ascii List Bool Arith ZArith QArith Qminmax Qabs Lia Sorted.
From Stdlib Require Floats Uint63.
From stdpp Require Import gmap strings.

Import ListNotations.
Local Open Scope string_scope.
Local Open Scope list_scope.
Local Open Scope nat_scope.

Set Warnings "-inexact-float".

(** ** Text: the [str] methods used by the sources *)

Module Text.

Definition newline : ascii := "010"%char.

(** [str.isspace] on one ASCII character: TAB, LF, VT, FF, CR, the
    separators FS, GS, RS, US and the space. *)
Definition is_space (c : ascii) : bool :=
  let n := nat_of_ascii c in
  ((9 <=? n) && (n <=? 13)) || ((28 <=? n) && (n <=? 32)).

Definition is_upper (c : ascii) : bool :=
  let n := nat_of_ascii c in (65 <=? n) && (n <=? 90).

Definition is_lower (c : ascii) : bool :=
  let n := nat_of_ascii c in (97 <=? n) && (n <=? 122).

Definition is_digit (c : ascii) : bool :=
  let n := nat_of_ascii c in (48 <=? n) && (n <=? 57).

(** A word character of [re]: letter, digit or underscore. *)
Definition is_word (c : ascii) : bool :=
  is_upper c || is_lower c || is_digit c || Ascii.eqb c "_"%char.

Definition lower_char (c : ascii) : ascii :=
  if is_upper c then ascii_of_nat (nat_of_ascii c + 32) else c.

Definition upper_char (c : ascii) : ascii :=
  if is_lower c then ascii_of_nat (nat_of_ascii c - 32) else c.

Fixpoint map_chars (f : ascii -> ascii) (s : string) : string :=
  match s with
  | EmptyString => EmptyString
  | String c s' => String (f c) (map_chars f s')
  end.

(** [s.lower()] and [s.upper()] *)
Definition lower (s : string) : string := map_chars lower_char s.
Definition upper (s : string) : string := map_chars upper_char s.

(** [s.startswith(p)] *)
Fixpoint startswith (p s : string) : bool :=
  match p, s with
  | EmptyString, _ => true
  | String a p', String b s' => Ascii.eqb a b && startswith p' s'
  | String _ _, EmptyString => false
  end.

(** [needle in hay] *)
Fixpoint contains (needle hay : string) : bool :=
  startswith needle hay ||
  match hay with
  | EmptyString => false
  | String _ hay' => contains needle hay'
  end.

(** [s.split('\n')]: never empty, one more piece than line breaks. *)
Fixpoint split_lines (s : string) : list string :=
  match s with
  | EmptyString => [EmptyString]
  | String c s' =>
      if Ascii.eqb c newline then EmptyString :: split_lines s'
      else match split_lines s' with
           | l :: ls => String c l :: ls
           | [] => [String c EmptyString]
           end
  end.

(** [s.count('\n')] *)
Fixpoint count_newlines (s : string) : nat :=
  match s with
  | EmptyString => 0
  | String c s' => (if Ascii.eqb c newline then 1 else 0) + count_newlines s'
  end.

(** [s[:n]] *)
Fixpoint take (n : nat) (s : string) : string :=
  match n, s with
  | S n', String c s' => String c (take n' s')
  | _, _ => EmptyString
  end.

(** [s.lstrip()], [s.rstrip()] and [s.strip()] *)
Fixpoint lstrip (s : string) : string :=
  match s with
  | EmptyString => EmptyString
  | String c s' => if is_space c then lstrip s' else s
  end.

Fixpoint rstrip (s : string) : string :=
  match s with
  | EmptyString => EmptyString
  | String c s' =>
      match rstrip s' with
      | EmptyString => if is_space c then EmptyString else String c EmptyString
      | r => String c r
      end
  end.

Definition strip (s : string) : string := rstrip (lstrip s).

(** Truth value of a [str]: non-empty. *)
Definition nonempty (s : string) : bool :=
  match s with EmptyString => false | String _ _ => true end.

(** [s[-1:]]: the last character of a text, as a text; empty for the
    empty text. *)
Fixpoint last_char (s : string) : string :=
  match s with
  | EmptyString => EmptyString
  | String c EmptyString => s
  | String _ s' => last_char s'
  end.

End Text.

(** ** Re: the fragment of the [re] module the patterns need

    A backtracking matcher with the priorities of [re]: alternatives are
    tried from the left, repetitions are greedy.  The patterns of the sources
    use literals, [.], [\s], [\w], negated sets, [\b], groups, alternation
    and the repetitions [*], [+], [?] and [{n,}]. *)

Module Re.

Inductive cset : Type :=
| CLit (c : ascii)            (* a literal character *)
| CDot                        (* [.]: any character but the line break *)
| CSpace                      (* [\s] *)
| CWord                       (* [\w] *)
| CNoneOf (l : list ascii).   (* [[^...]] *)

Inductive regex : Type :=
| Eps
| Chr (cs : cset)
| Seq (r1 r2 : regex)
| Alt (r1 r2 : regex)
| Star (r : regex)
| WordB.                      (* [\b] *)

(** A compiled pattern: the expression and the IGNORECASE flag (given to
    the call or inline as [(?i)]). *)
Record pattern : Type := { ignorecase : bool; expr : regex }.

Definition cset_mem (ic : bool) (cs : cset) (c : ascii) : bool :=
  match cs with
  | CLit a =>
      if ic then Ascii.eqb (Text.lower_char a) (Text.lower_char c)
      else Ascii.eqb a c
  | CDot => negb (Ascii.eqb c Text.newline)
  | CSpace => Text.is_space c
  | CWord => Text.is_word c
  | CNoneOf l => negb (existsb (Ascii.eqb c) l)
  end.

Definition opt_word (o : option ascii) : bool :=
  match o with Some c => Text.is_word c | None => false end.

Definition head (s : string) : option ascii :=
  match s with EmptyString => None | String c _ => Some c end.

(** [\b] holds between [prev] and the rest [s] when exactly one side is a
    word character. *)
Definition boundary (prev : option ascii) (s : string) : bool :=
  xorb (opt_word prev) (opt_word (head s)).

(** [rmatch ic r prev s k]: match [r] at the front of [s] ([prev] is the
    character before it), then hand the rest to the continuation [k];
    the answer is the text left after the whole match.  An iteration of a
    repetition has to consume a character. *)
Fixpoint rmatch (ic : bool) (r : regex) (prev : option ascii) (s : string)
    (k : option ascii -> string -> option string) {struct r} : option string :=
  match r with
  | Eps => k prev s
  | Chr cs =>
      match s with
      | EmptyString => None
      | String c s' => if cset_mem ic cs c then k (Some c) s' else None
      end
  | Seq r1 r2 => rmatch ic r1 prev s (fun p' s' => rmatch ic r2 p' s' k)
  | Alt r1 r2 =>
      match rmatch ic r1 prev s k with
      | Some rest => Some rest
      | None => rmatch ic r2 prev s k
      end
  | Star r1 =>
      (fix loop (n : nat) (prev : option ascii) (s : string) {struct n}
         : option string :=
         match n with
         | O => k prev s
         | S n' =>
             match rmatch ic r1 prev s
                     (fun p' s' =>
                        if String.length s' <? String.length s
                        then loop n' p' s' else None) with
             | Some rest => Some rest
             | None => k prev s
             end
         end) (String.length s) prev s
  | WordB => if boundary prev s then k prev s else None
  end.

(** [match_at p prev s]: the length of the match of [p] at the front of
    [s], if there is one. *)
Definition match_at (p : pattern) (prev : option ascii) (s : string) : option nat :=
  match rmatch (ignorecase p) (expr p) prev s (fun _ rest => Some rest) with
  | Some rest => Some (String.length s - String.length rest)
  | None => None
  end.

(** [scan p prev s pos skip]: the matches of [p] in [s], which starts at
    offset [pos] of the searched text, from left to right and without
    overlap, as pairs (start offset, matched text); [skip] characters
    belong to the previous match.  An empty match is reported and the
    search moves on by one character (no pattern of the sources matches
    the empty text). *)
Fixpoint scan (p : pattern) (prev : option ascii) (s : string) (pos skip : nat)
    {struct s} : list (nat * string) :=
  match s with
  | EmptyString =>
      match skip with
      | O => match match_at p prev s with
             | Some _ => [(pos, EmptyString)]
             | None => []
             end
      | S _ => []
      end
  | String c s' =>
      match skip with
      | S skip' => scan p (Some c) s' (S pos) skip'
      | O =>
          match match_at p prev s with
          | Some n => (pos, Text.take n s) :: scan p (Some c) s' (S pos) (pred n)
          | None => scan p (Some c) s' (S pos) 0
          end
      end
  end.

(** [re.finditer(p, s)] as (match.start(), match.group()) pairs. *)
Definition finditer (p : pattern) (s : string) : list (nat * string) :=
  scan p None s 0 0.

(** [len(re.findall(p, s))] for a pattern without groups. *)
Definition findall_count (p : pattern) (s : string) : nat :=
  List.length (finditer p s).

(** [re.search(p, s)] as a truth value. *)
Fixpoint search_from (p : pattern) (prev : option ascii) (s : string) : bool :=
  match match_at p prev s with
  | Some _ => true
  | None =>
      match s with
      | EmptyString => false
      | String c s' => search_from p (Some c) s'
      end
  end.

Definition search (p : pattern) (s : string) : bool := search_from p None s.

(** *** Pattern syntax *)

Definition chr (c : ascii) : regex := Chr (CLit c).

(** A literal text. *)
Fixpoint lit (s : string) : regex :=
  match s with
  | EmptyString => Eps
  | String c EmptyString => chr c
  | String c s' => Seq (chr c) (lit s')
  end.

Definition plus (r : regex) : regex := Seq r (Star r).      (* [r+] *)
Definition opt (r : regex) : regex := Alt r Eps.            (* [r?] *)

(** [r{n,}] *)
Fixpoint at_least (n : nat) (r : regex) : regex :=
  match n with
  | O => Star r
  | S n' => Seq r (at_least n' r)
  end.

(** [r1 r2 ... rn] *)
Fixpoint seq (rs : list regex) : regex :=
  match rs with
  | [] => Eps
  | [r] => r
  | r :: rs' => Seq r (seq rs')
  end.

(** [r1|r2|...|rn] *)
Fixpoint alt (rs : list regex) : regex :=
  match rs with
  | [] => Eps
  | [r] => r
  | r :: rs' => Alt r (alt rs')
  end.

Definition spaces : regex := Star (Chr CSpace).             (* [\s*] *)
Definition spaces1 : regex := plus (Chr CSpace).            (* [\s+] *)
Definition any : regex := Star (Chr CDot).                  (* [.*] *)
Definition none_of (s : string) : regex :=                  (* [[^...]] *)
  Chr (CNoneOf (list_ascii_of_string s)).
(** A single or double quote character, and anything but those. *)
Definition dquote : ascii := "034"%char.
Definition squote : ascii := "039"%char.
Definition quote : regex := Alt (chr dquote) (chr squote).
Definition not_quote : regex := Chr (CNoneOf [dquote; squote]).

Definition cased (r : regex) : pattern := {| ignorecase := false; expr := r |}.
Definition nocase (r : regex) : pattern := {| ignorecase := true; expr := r |}.

(** The least number of characters a match of an expression takes. *)
Fixpoint min_len (r : regex) : nat :=
  match r with
  | Eps => 0
  | Chr _ => 1
  | Seq r1 r2 => min_len r1 + min_len r2
  | Alt r1 r2 => Nat.min (min_len r1) (min_len r2)
  | Star _ => 0
  | WordB => 0
  end.

End Re.

(** ** The JSON output of the external tool

    [{"results": [{check_id, start: {line}, extra: {message, severity,
    lines}}, ...]}]: one record per reported finding; every key may be
    absent, which is what the [dict.get] calls of the sources provide for. *)

Module Semgrep.

Record start_pos : Type := { line : option Z }.

Record extra_info : Type :=
  { message : option string;
    severity : option string;
    lines : option string }.

Record result : Type :=
  { check_id : option string;
    start : option start_pos;
    extra : option extra_info }.

(** [r.get('extra', {}).get('severity')] *)
Definition get_extra_severity (r : result) : option string :=
  match extra r with
  | Some e => severity e
  | None => None
  end.

End Semgrep.

(** ** ai_enhancement.py: class AIBugPredictor

    The scores are rationals here; the module [Binary64] below gives the
    methods that compute with floats the arithmetic of the machine, and
    the lemma [predict_vulnerabilities_readings] compares the two. *)

Module AIBugPredictor.
Import Re.

(** [self.vulnerability_patterns], iterated in insertion order; every
    pattern is used with [re.IGNORECASE | re.MULTILINE]. *)
Definition vulnerability_patterns : list (string * list pattern) :=
  [ ("sql_injection",
      [ (* execute\s*\(\s*[QUOTE].*%.*[QUOTE] *)
        nocase (seq [lit "execute"; spaces; chr "("; spaces; quote; any; chr "%"; any; quote]);
        (* query\s*\(\s*[QUOTE].*\+.*[QUOTE] *)
        nocase (seq [lit "query"; spaces; chr "("; spaces; quote; any; chr "+"; any; quote]);
        (* cursor\.execute\s*\(\s*[QUOTE].*%.*[QUOTE] *)
        nocase (seq [lit "cursor.execute"; spaces; chr "("; spaces; quote; any; chr "%"; any; quote]) ]);
    ("xss",
      [ (* innerHTML\s*=\s*.*\+ *)
        nocase (seq [lit "innerHTML"; spaces; chr "="; spaces; any; chr "+"]);
        (* document\.write\s*\(\s*.*\+ *)
        nocase (seq [lit "document.write"; spaces; chr "("; spaces; any; chr "+"]);
        (* eval\s*\(\s*.*input *)
        nocase (seq [lit "eval"; spaces; chr "("; spaces; any; lit "input"]) ]);
    ("hardcoded_secrets",
      [ (* password\s*=\s*[QUOTE][^QUOTE]{8,}[QUOTE] *)
        nocase (seq [lit "password"; spaces; chr "="; spaces; quote; at_least 8 not_quote; quote]);
        (* api_key\s*=\s*[QUOTE][^QUOTE]{20,}[QUOTE] *)
        nocase (seq [lit "api_key"; spaces; chr "="; spaces; quote; at_least 20 not_quote; quote]);
        (* secret\s*=\s*[QUOTE][^QUOTE]{16,}[QUOTE] *)
        nocase (seq [lit "secret"; spaces; chr "="; spaces; quote; at_least 16 not_quote; quote]) ]);
    ("buffer_overflow",
      [ (* strcpy\s*\( *)
        nocase (seq [lit "strcpy"; spaces; chr "("]);
        (* strcat\s*\( *)
        nocase (seq [lit "strcat"; spaces; chr "("]);
        (* sprintf\s*\( *)
        nocase (seq [lit "sprintf"; spaces; chr "("]) ]);
    ("race_condition",
      [ (* threading\. *)
        nocase (lit "threading.");
        (* multiprocessing\. *)
        nocase (lit "multiprocessing.");
        (* async\s+def *)
        nocase (seq [lit "async"; spaces1; lit "def"]) ]) ].

(** [self.severity_weights] *)
Definition severity_weights : gmap string Q :=
  list_to_map
    [ ("sql_injection", 0.9%Q);
      ("xss", 0.8%Q);
      ("hardcoded_secrets", 0.85%Q);
      ("buffer_overflow", 0.95%Q);
      ("race_condition", 0.7%Q) ].

(** One entry of the list [predict_vulnerabilities] returns (a [dict] with
    the keys type, line, severity, confidence, suggestion, match). *)
Record prediction : Type :=
  { pr_type : string;
    pr_line : nat;
    pr_severity : Q;
    pr_confidence : Q;
    pr_suggestion : string;
    pr_match : string }.

Definition calculate_severity (vuln_type : string) (match_ : string) : Q :=
  let base_severity := default 0.5%Q (severity_weights !! vuln_type) in
  let base_severity :=
    if Text.contains "user" (Text.lower match_) || Text.contains "input" (Text.lower match_)
    then (base_severity + 0.1)%Q else base_severity in
  let base_severity :=
    if Text.contains "admin" (Text.lower match_) || Text.contains "root" (Text.lower match_)
    then (base_severity + 0.15)%Q else base_severity in
  Qmin base_severity 1.0%Q.

Definition confidence_map : gmap string Q :=
  list_to_map
    [ ("sql_injection", 0.8%Q);
      ("xss", 0.75%Q);
      ("hardcoded_secrets", 0.9%Q);
      ("buffer_overflow", 0.85%Q);
      ("race_condition", 0.6%Q) ].

Definition calculate_confidence (vuln_type : string) (match_ : string) : Q :=
  default 0.5%Q (confidence_map !! vuln_type).

Definition suggestions : gmap string string :=
  list_to_map
    [ ("sql_injection", "Use parameterized queries or prepared statements instead of string concatenation");
      ("xss", "Sanitize user input and use safe DOM manipulation methods");
      ("hardcoded_secrets", "Move secrets to environment variables or secure configuration files");
      ("buffer_overflow", "Use safer string functions like strncpy, strncat, or snprintf");
      ("race_condition", "Use proper synchronization mechanisms like locks or atomic operations") ].

Definition get_fix_suggestion (vuln_type : string) : string :=
  default "Review code for potential security issues" (suggestions !! vuln_type).

(** The entry appended for one match: the line is
    [code[:match.start()].count('\n') + 1]. *)
Definition prediction_of (code vuln_type : string) (m : nat * string) : prediction :=
  {| pr_type := vuln_type;
     pr_line := Text.count_newlines (Text.take (fst m) code) + 1;
     pr_severity := calculate_severity vuln_type (snd m);
     pr_confidence := calculate_confidence vuln_type (snd m);
     pr_suggestion := get_fix_suggestion vuln_type;
     pr_match := snd m |}.

(** The inner loops: the matches of one pattern, then of one category. *)
Definition predictions_of_pattern (code vuln_type : string) (p : pattern) : list prediction :=
  map (prediction_of code vuln_type) (finditer p code).

Definition predictions_of_type (code : string) (entry : string * list pattern) : list prediction :=
  flat_map (predictions_of_pattern code (fst entry)) (snd entry).

Definition predict_vulnerabilities (code language : string) : list prediction :=
  flat_map (predictions_of_type code) vulnerability_patterns.

(** The [dict] [analyze_code_complexity] returns. *)
Record metrics : Type :=
  { total_lines : nat;
    code_lines : nat;
    comment_lines : nat;
    cyclomatic_complexity : nat;
    nesting_depth : nat;
    function_count : nat;
    class_count : nat }.

Definition decision_keywords : list string :=
  ["if"; "elif"; "while"; "for"; "except"; "and"; "or"].

(** The pattern [\bKEYWORD\b], used without flags. *)
Definition keyword_pattern (keyword : string) : pattern :=
  cased (seq [WordB; lit keyword; WordB]).

Definition calculate_cyclomatic_complexity (code : string) : nat :=
  fold_left (fun complexity keyword => complexity + findall_count (keyword_pattern keyword) code)
            decision_keywords 1.

Definition calculate_max_nesting_depth (code : string) : nat :=
  fold_left
    (fun max_depth line =>
       let stripped := Text.lstrip line in
       if Text.nonempty stripped && negb (Text.startswith "#" stripped)
       then Nat.max max_depth ((String.length line - String.length stripped) / 4)
       else max_depth)
    (Text.split_lines code) 0.

(** The two list comprehensions of [analyze_code_complexity]. *)
Definition is_code_line (line : string) : bool :=
  Text.nonempty (Text.strip line) && negb (Text.startswith "#" (Text.strip line)).

Definition is_comment_line (line : string) : bool :=
  Text.startswith "#" (Text.strip line).

Definition analyze_code_complexity (code : string) : metrics :=
  let lines := Text.split_lines code in
  {| total_lines := List.length lines;
     code_lines := List.length (List.filter is_code_line lines);
     comment_lines := List.length (List.filter is_comment_line lines);
     cyclomatic_complexity := calculate_cyclomatic_complexity code;
     nesting_depth := calculate_max_nesting_depth code;
     (* def\s+\w+ and class\s+\w+ *)
     function_count := findall_count (cased (seq [lit "def"; spaces1; plus (Chr CWord)])) code;
     class_count := findall_count (cased (seq [lit "class"; spaces1; plus (Chr CWord)])) code |}.

(** [len([r for r in semgrep_results if r.get('extra', {}).get('severity') == level])] *)
Definition count_severity (level : string) (semgrep_results : list Semgrep.result) : nat :=
  List.length
    (List.filter
       (fun r => match Semgrep.get_extra_severity r with
                 | Some s => String.eqb s level
                 | None => false
                 end)
       semgrep_results).

Definition Qsum (l : list Q) : Q := fold_left Qplus l 0%Q.

Definition generate_risk_score (semgrep_results : list Semgrep.result)
    (ai_predictions : list prediction) : Q :=
  let semgrep_score := (inject_Z (Z.of_nat (count_severity "ERROR" semgrep_results)) * 0.3)%Q in
  let semgrep_score :=
    (semgrep_score + inject_Z (Z.of_nat (count_severity "WARNING" semgrep_results)) * 0.2)%Q in
  let semgrep_score :=
    (semgrep_score + inject_Z (Z.of_nat (count_severity "INFO" semgrep_results)) * 0.1)%Q in
  let ai_score := Qsum (map (fun p => (pr_severity p * pr_confidence p)%Q) ai_predictions) in
  let total_score := ((semgrep_score + ai_score) / 10)%Q in
  Qmin total_score 1.0%Q.

End AIBugPredictor.

(** ** ai_enhancement.py: the scores of AIBugPredictor in binary64

    A Python [float] is an IEEE 754 binary64 number, and so is the
    primitive [float] of Rocq: [+], [*] and [/] round to nearest, ties to
    even, and a decimal constant denotes the nearest binary64 number, as it
    does in Python.  This module gives the methods of [AIBugPredictor] that
    compute with floats the arithmetic of the machine; the module
    [AIBugPredictor] above reads the same methods over the rationals. *)

Module Binary64.
Import Re PrimFloat SpecFloat FloatOps.
Local Open Scope float_scope.

(** [self.severity_weights] *)
Definition severity_weights : gmap string float :=
  list_to_map
    [ ("sql_injection", 0.9);
      ("xss", 0.8);
      ("hardcoded_secrets", 0.85);
      ("buffer_overflow", 0.95);
      ("race_condition", 0.7) ].

(** One entry of the list [predict_vulnerabilities] returns. *)
Record prediction : Type :=
  { pr_type : string;
    pr_line : nat;
    pr_severity : float;
    pr_confidence : float;
    pr_suggestion : string;
    pr_match : string }.

(** The builtin [min(a, b)] on two floats: [b] when [b < a], otherwise [a]
    (so [a] when one of the two is not a number). *)
Definition min (a b : float) : float := if b <? a then b else a.

Definition calculate_severity (vuln_type : string) (match_ : string) : float :=
  let base_severity := default 0.5 (severity_weights !! vuln_type) in
  let base_severity :=
    if (Text.contains "user" (Text.lower match_) || Text.contains "input" (Text.lower match_))%bool
    then base_severity + 0.1 else base_severity in
  let base_severity :=
    if (Text.contains "admin" (Text.lower match_) || Text.contains "root" (Text.lower match_))%bool
    then base_severity + 0.15 else base_severity in
  min base_severity 1.0.

Definition confidence_map : gmap string float :=
  list_to_map
    [ ("sql_injection", 0.8);
      ("xss", 0.75);
      ("hardcoded_secrets", 0.9);
      ("buffer_overflow", 0.85);
      ("race_condition", 0.6) ].

Definition calculate_confidence (vuln_type : string) (match_ : string) : float :=
  default 0.5 (confidence_map !! vuln_type).

Definition prediction_of (code vuln_type : string) (m : nat * string) : prediction :=
  {| pr_type := vuln_type;
     pr_line := Text.count_newlines (Text.take (fst m) code) + 1;
     pr_severity := calculate_severity vuln_type (snd m);
     pr_confidence := calculate_confidence vuln_type (snd m);
     pr_suggestion := AIBugPredictor.get_fix_suggestion vuln_type;
     pr_match := snd m |}.

Definition predictions_of_pattern (code vuln_type : string) (p : pattern) : list prediction :=
  map (prediction_of code vuln_type) (finditer p code).

Definition predictions_of_type (code : string) (entry : string * list pattern) : list prediction :=
  flat_map (predictions_of_pattern code (fst entry)) (snd entry).

Definition predict_vulnerabilities (code language : string) : list prediction :=
  flat_map (predictions_of_type code) AIBugPredictor.vulnerability_patterns.

(** [len(...)] as an operand of a float product: a list has fewer than
    2^63 entries ([sys.maxsize]), and the conversion of an [int] rounds to
    nearest. *)
Definition of_len (n : nat) : float := of_uint63 (Uint63.of_Z (Z.of_nat n)).

(** The builtin [sum] on a list of floats, as CPython computes it up to
    version 3.11: from 0, one rounded addition per entry, left to right.
    (From version 3.12 on [sum] carries a compensation term along.) *)
Definition sum (l : list float) : float := fold_left add l 0.

Definition generate_risk_score (semgrep_results : list Semgrep.result)
    (ai_predictions : list prediction) : float :=
  let semgrep_score := of_len (AIBugPredictor.count_severity "ERROR" semgrep_results) * 0.3 in
  let semgrep_score :=
    semgrep_score + of_len (AIBugPredictor.count_severity "WARNING" semgrep_results) * 0.2 in
  let semgrep_score :=
    semgrep_score + of_len (AIBugPredictor.count_severity "INFO" semgrep_results) * 0.1 in
  let ai_score := sum (map (fun p => pr_severity p * pr_confidence p) ai_predictions) in
  let total_score := (semgrep_score + ai_score) / 10 in
  min total_score 1.0.

(** *** Reading a float

    [Prim2SF] describes a float as IEEE 754 does: a signed zero, a signed
    infinity, not a number, or sign, mantissa and exponent. *)

(** The rational a finite float denotes (0 for the others). *)
Definition to_Q (x : float) : Q :=
  match Prim2SF x with
  | S754_finite s m e =>
      ((if s then -1 else 1) * inject_Z (Zpos m) * Qpower 2 e)%Q
  | _ => 0%Q
  end.

(** A zero, a positive number or plus infinity. *)
Definition nonneg (x : spec_float) : Prop :=
  match x with
  | S754_zero _ => True
  | S754_finite s _ _ => s = false
  | S754_infinity s => s = false
  | S754_nan => False
  end.

(** A zero or a positive number. *)
Definition finite_nonneg (x : spec_float) : Prop :=
  match x with
  | S754_zero _ => True
  | S754_finite s _ _ => s = false
  | _ => False
  end.

(** A positive number. *)
Definition positive_finite (x : spec_float) : Prop :=
  match x with
  | S754_finite s _ _ => s = false
  | _ => False
  end.

End Binary64.

(** ** The subordinate process

    What [subprocess.run(cmd, capture_output=True, ..., timeout=30)] can do:
    raise (the tool is not on the path, the deadline passes, anything else),
    or complete with a return code and an output, of which only the result
    of [json.loads] matters here. *)

Module Subprocess.

Inductive stdout_json : Type :=
| NotJson                                              (* [json.loads] raises *)
| JsonOther                                            (* valid JSON, not an object *)
| JsonObject (results : option (list Semgrep.result)). (* an object, with or without the key results *)

Inductive run_outcome : Type :=
| FileNotFound
| TimeoutExpired
| OtherError
| Completed (returncode : Z) (stdout : stdout_json).

End Subprocess.

(** ** main.py: class ModernBugPredictionGUI (the analysis methods) *)

Module ModernBugPredictionGUI.
Import Re.

(** One entry of the list of vulnerabilities (a [dict] with the keys type,
    description, line, code, severity, file and, for the findings of the
    external tool, source). *)
Record vulnerability : Type :=
  { v_type : string;
    v_description : string;
    v_line : Z;
    v_code : string;
    v_severity : string;
    v_file : string;
    v_source : option string }.

(** The local [patterns] of [detect_vulnerabilities], iterated in
    insertion order; [re.search] is called without flags, so only the
    patterns that start with the inline flag ignore case. *)
Definition patterns : list (string * list (pattern * string)) :=
  [ ("SQL Injection",
      [ (* (?i)(SELECT|INSERT|UPDATE|DELETE).*\+.* *)
        (nocase (seq [alt [lit "SELECT"; lit "INSERT"; lit "UPDATE"; lit "DELETE"]; any; chr "+"; any]),
         "String concatenation in SQL query");
        (* (?i)1\s*OR\s*1\s*=\s*1 *)
        (nocase (seq [chr "1"; spaces; lit "OR"; spaces; chr "1"; spaces; chr "="; spaces; chr "1"]),
         "Classic SQL injection pattern");
        (* (?i)UNION\s+SELECT *)
        (nocase (seq [lit "UNION"; spaces1; lit "SELECT"]), "UNION-based SQL injection");
        (* (?i);\s*DROP\s+TABLE *)
        (nocase (seq [chr ";"; spaces; lit "DROP"; spaces1; lit "TABLE"]),
         "SQL injection with DROP statement") ]);
    ("Cross-Site Scripting (XSS)",
      [ (* innerHTML\s*=\s*[^;]*\+ *)
        (cased (seq [lit "innerHTML"; spaces; chr "="; spaces; Star (none_of ";"); chr "+"]),
         "Unsafe innerHTML assignment");
        (* document\.write\s*\([^)]*\+ *)
        (cased (seq [lit "document.write"; spaces; chr "("; Star (none_of ")"); chr "+"]),
         "Unsafe document.write usage");
        (* <script[^>]*>[^<]*</script> *)
        (cased (seq [lit "<script"; Star (none_of ">"); chr ">"; Star (none_of "<"); lit "</script>"]),
         "Inline script tag") ]);
    ("Command Injection",
      [ (* os\.system\s*\([^)]*\+ *)
        (cased (seq [lit "os.system"; spaces; chr "("; Star (none_of ")"); chr "+"]),
         "Command injection via os.system");
        (* subprocess\.[^(]*\([^)]*shell\s*=\s*True *)
        (cased (seq [lit "subprocess."; Star (none_of "("); chr "("; Star (none_of ")");
                     lit "shell"; spaces; chr "="; spaces; lit "True"]),
         "Shell injection risk");
        (* eval\s*\([^)]*input *)
        (cased (seq [lit "eval"; spaces; chr "("; Star (none_of ")"); lit "input"]),
         "Code injection via eval") ]);
    ("Path Traversal",
      [ (* \.\./ *)
        (cased (lit "../"), "Directory traversal pattern");
        (* open\s*\([^)]*\+[^)]*[QUOTE][^QUOTE]*[QUOTE] *)
        (cased (seq [lit "open"; spaces; chr "("; Star (none_of ")"); chr "+"; Star (none_of ")");
                     quote; Star not_quote; quote]),
         "Unsafe file path construction") ]);
    ("Hardcoded Credentials",
      [ (* (?i)(password|pwd|pass)\s*=\s*[QUOTE][^QUOTE]{3,}[QUOTE] *)
        (nocase (seq [alt [lit "password"; lit "pwd"; lit "pass"]; spaces; chr "="; spaces;
                      quote; at_least 3 not_quote; quote]),
         "Hardcoded password");
        (* (?i)(api_key|apikey|secret)\s*=\s*[QUOTE][^QUOTE]{10,}[QUOTE] *)
        (nocase (seq [alt [lit "api_key"; lit "apikey"; lit "secret"]; spaces; chr "="; spaces;
                      quote; at_least 10 not_quote; quote]),
         "Hardcoded API key") ]);
    ("Weak Cryptography",
      [ (* hashlib\.md5\s*\( *)
        (cased (seq [lit "hashlib.md5"; spaces; chr "("]), "Weak MD5 hash usage");
        (* hashlib\.sha1\s*\( *)
        (cased (seq [lit "hashlib.sha1"; spaces; chr "("]), "Weak SHA1 hash usage");
        (* (?i)DES|RC4 *)
        (nocase (alt [lit "DES"; lit "RC4"]), "Weak encryption algorithm") ]);
    ("Unsafe Deserialization",
      [ (* pickle\.loads?\s*\( *)
        (cased (seq [lit "pickle.load"; opt (chr "s"); spaces; chr "("]),
         "Unsafe pickle deserialization");
        (* yaml\.load\s*\([^)]*Loader *)
        (cased (seq [lit "yaml.load"; spaces; chr "("; Star (none_of ")"); lit "Loader"]),
         "Unsafe YAML loading") ]);
    ("Information Disclosure",
      [ (* (?i)debug\s*=\s*True *)
        (nocase (seq [lit "debug"; spaces; chr "="; spaces; lit "True"]), "Debug mode enabled");
        (* print\s*\([^)]*password *)
        (cased (seq [lit "print"; spaces; chr "("; Star (none_of ")"); lit "password"]),
         "Password in debug output");
        (* console\.log\s*\([^)]*token *)
        (cased (seq [lit "console.log"; spaces; chr "("; Star (none_of ")"); lit "token"]),
         "Token in console output") ]) ].

Definition critical_types : list string :=
  ["SQL Injection"; "Command Injection"; "Unsafe Deserialization"; "Hardcoded Credentials"].
Definition high_types : list string := ["Cross-Site Scripting (XSS)"; "Path Traversal"].
Definition medium_types : list string := ["Weak Cryptography"; "Information Disclosure"].

(** [x in l] for a list of strings *)
Definition mem (x : string) (l : list string) : bool := existsb (String.eqb x) l.

Definition get_severity (vuln_type : string) : string :=
  if mem vuln_type critical_types then "CRITICAL"
  else if mem vuln_type high_types then "HIGH"
  else if mem vuln_type medium_types then "MEDIUM"
  else "LOW".

(** [enumerate(lines, 1)] *)
Definition enumerate1 (lines : list string) : list (nat * string) :=
  combine (List.seq 1 (List.length lines)) lines.

(** The innermost loop: the lines one pattern is found in. *)
Definition scan_pattern (file_path vuln_type : string) (lines : list string)
    (entry : pattern * string) : list vulnerability :=
  flat_map
    (fun numbered : nat * string =>
       let (line_num, line) := numbered in
       if search (fst entry) line then
         [ {| v_type := vuln_type;
              v_description := snd entry;
              v_line := Z.of_nat line_num;
              v_code := Text.strip line;
              v_severity := get_severity vuln_type;
              v_file := file_path;
              v_source := None |} ]
       else [])
    (enumerate1 lines).

Definition scan_type (file_path : string) (lines : list string)
    (entry : string * list (pattern * string)) : list vulnerability :=
  flat_map (scan_pattern file_path (fst entry) lines) (snd entry).

(** [detect_vulnerabilities(file_path)]; [read] is what opening and reading
    the file gives: its content, or [None] when that raises, which the
    function catches before anything was appended. *)
Definition detect_vulnerabilities (file_path : string) (read : option string)
    : list vulnerability :=
  match read with
  | None => []
  | Some content => flat_map (scan_type file_path (Text.split_lines content)) patterns
  end.

(** The entry appended for one finding of the external tool. *)
Definition semgrep_vulnerability (file_path : string) (finding : Semgrep.result) : vulnerability :=
  {| v_type := default "Unknown" (Semgrep.check_id finding);
     v_description :=
       default "Semgrep finding" (e ← Semgrep.extra finding; Semgrep.message e);
     v_line := default 0%Z (s ← Semgrep.start finding; Semgrep.line s);
     v_code := default "" (e ← Semgrep.extra finding; Semgrep.lines e);
     v_severity := Text.upper (default "INFO" (e ← Semgrep.extra finding; Semgrep.severity e));
     v_file := file_path;
     v_source := Some "Semgrep" |}.

(** [run_semgrep_analysis(file_path)]; [outcome] is what running the tool
    does.  Every exception is caught and gives the empty list. *)
Definition run_semgrep_analysis (file_path : string) (outcome : Subprocess.run_outcome)
    : list vulnerability :=
  match outcome with
  | Subprocess.Completed 0 (Subprocess.JsonObject (Some results)) =>
      map (semgrep_vulnerability file_path) results
  | _ => []
  end.

(** The initial [categories] of [categorize_vulnerabilities]. *)
Definition empty_categories : gmap string nat :=
  list_to_map [("CRITICAL", 0); ("HIGH", 0); ("MEDIUM", 0); ("LOW", 0); ("INFO", 0)].

Definition categorize_vulnerabilities (vulnerabilities : list vulnerability) : gmap string nat :=
  fold_left
    (fun categories vuln =>
       match categories !! v_severity vuln with
       | Some n => <[v_severity vuln := n + 1]> categories
       | None => categories
       end)
    vulnerabilities empty_categories.

(** *** Saving and aggregating

    [save_analysis_result] inserts one row into the table
    [analysis_results]; the table is the list of its rows, oldest first.
    The column results_json holds [json.dumps(vulnerabilities)], kept here
    as the list it serialises. *)
Record db_row : Type :=
  { row_timestamp : string;
    row_filename : string;
    row_language : string;
    row_total_vulnerabilities : nat;
    row_critical_count : nat;
    row_high_count : nat;
    row_medium_count : nat;
    row_low_count : nat;
    row_info_count : nat;
    row_results_json : list vulnerability }.

(** [sum(summary.values())] *)
Definition sum_values (summary : gmap string nat) : nat :=
  sum_list (map snd (map_to_list summary)).

(** The two settings the analysis reads ([self.enable_semgrep] and
    [self.selected_language]). *)
Record settings : Type :=
  { enable_semgrep : bool;
    selected_language : string }.

(** What the environment does while one file is analysed: the result of
    reading the file, what running the external tool does, the time of the
    clock, and whether the insertion into the database goes through. *)
Record file_env : Type :=
  { env_read : option string;
    env_semgrep : Subprocess.run_outcome;
    env_timestamp : string;
    env_db_ok : bool }.

(** [save_analysis_result(filename, summary, vulnerabilities)]: a failure of
    the database is caught and printed, and nothing is stored. *)
Definition save_analysis_result (st : settings) (env : file_env) (filename : string)
    (summary : gmap string nat) (vulnerabilities : list vulnerability)
    (db : list db_row) : list db_row :=
  if env_db_ok env then
    db ++ [ {| row_timestamp := env_timestamp env;
               row_filename := filename;
               row_language := selected_language st;
               row_total_vulnerabilities := sum_values summary;
               row_critical_count := default 0 (summary !! "CRITICAL");
               row_high_count := default 0 (summary !! "HIGH");
               row_medium_count := default 0 (summary !! "MEDIUM");
               row_low_count := default 0 (summary !! "LOW");
               row_info_count := default 0 (summary !! "INFO");
               row_results_json := vulnerabilities |} ]
  else db.

(** The [dict] [analyze_file] returns (keys file, vulnerabilities, summary,
    total). *)
Record file_result : Type :=
  { fr_file : string;
    fr_vulnerabilities : list vulnerability;
    fr_summary : gmap string nat;
    fr_total : nat }.

(** [analyze_file(file_path)].  Each of the methods it calls catches its own
    exceptions, so the handler that would return an error is not reached. *)
Definition analyze_file (st : settings) (file_path : string) (env : file_env)
    (db : list db_row) : file_result * list db_row :=
  let vulnerabilities := detect_vulnerabilities file_path (env_read env) in
  let vulnerabilities :=
    if enable_semgrep st
    then vulnerabilities ++ run_semgrep_analysis file_path (env_semgrep env)
    else vulnerabilities in
  let categorized := categorize_vulnerabilities vulnerabilities in
  let db := save_analysis_result st env file_path categorized vulnerabilities db in
  ({| fr_file := file_path;
      fr_vulnerabilities := vulnerabilities;
      fr_summary := categorized;
      fr_total := List.length vulnerabilities |}, db).

(** The part of a text from its last dot on, if it has a dot. *)
Fixpoint from_last_dot (s : string) : option string :=
  match s with
  | EmptyString => None
  | String c s' =>
      match from_last_dot s' with
      | Some t => Some t
      | None => if Ascii.eqb c "."%char then Some s else None
      end
  end.

(** [Path(file_path).suffix] for a path whose last component is [name]:
    with [i = name.rfind('.')], it is [name[i:]] when [0 < i < len(name) - 1]
    and the empty text otherwise. *)
Definition suffix (name : string) : string :=
  match name with
  | EmptyString => EmptyString
  | String _ rest =>
      match from_last_dot rest with
      | Some t => if String.length t =? 1 then EmptyString else t
      | None => EmptyString
      end
  end.

Definition supported_extensions : list string :=
  [".py"; ".js"; ".java"; ".c"; ".cpp"; ".php"; ".rb"; ".go"; ".rs"].

(** [Path(file_path).suffix.lower() in supported_extensions] *)
Definition supported (name : string) : bool :=
  mem (Text.lower (suffix name)) supported_extensions.

(** [os.path.join(root, file)] on a POSIX system. *)
Definition path_join (root file : string) : string :=
  if Text.startswith "/" file then file
  else if negb (Text.nonempty root) then file
  else if Text.startswith "/" (Text.last_char root) then (root ++ file)%string
  else (root ++ "/" ++ file)%string.

(** One file [os.walk] comes across: the directory it is in, its name, and
    what the environment does while it is analysed. *)
Record walk_entry : Type :=
  { entry_root : string;
    entry_file : string;
    entry_env : file_env }.

(** The [dict] [analyze_directory] returns (keys directory, files_analyzed,
    results, total_vulnerabilities). *)
Record directory_result : Type :=
  { dr_directory : string;
    dr_files_analyzed : nat;
    dr_results : list file_result;
    dr_total_vulnerabilities : nat }.

(** The loop of [analyze_directory] over the files of the walk. *)
Definition analyze_entry (st : settings) (acc : list file_result * list db_row)
    (e : walk_entry) : list file_result * list db_row :=
  let file_path := path_join (entry_root e) (entry_file e) in
  if supported (entry_file e) then
    let (file_result, db) := analyze_file st file_path (entry_env e) (snd acc) in
    (fst acc ++ [file_result], db)
  else acc.

(** [analyze_directory(dir_path)]; [walk] lists the files [os.walk] yields,
    in its order. *)
Definition analyze_directory (st : settings) (dir_path : string) (walk : list walk_entry)
    (db : list db_row) : directory_result * list db_row :=
  let (results, db) := fold_left (analyze_entry st) walk ([], db) in
  ({| dr_directory := dir_path;
      dr_files_analyzed := List.length results;
      dr_results := results;
      dr_total_vulnerabilities := sum_list (map fr_total results) |}, db).

End ModernBugPredictionGUI.

(** ** enhanced_semgrep_rules.py: class EnhancedSemgrepAnalyzer

    The methods work on the file system and can raise.  A computation takes
    the set of temporary files that exist and gives back a value or an
    exception, and the files that exist afterwards. *)

Module EnhancedSemgrepAnalyzer.
Import Subprocess.

Inductive exn : Type :=
| OSError
| ImportError
| YAMLError
| FileNotFoundError
| TimeoutExpiredError
| JSONDecodeError
| AttributeError
| RuntimeError.

Inductive outcome (A : Type) : Type :=
| Returned (a : A)
| Raised (e : exn).
Arguments Returned {A} a.
Arguments Raised {A} e.

Definition files : Type := gset string.

Definition M (A : Type) : Type := files -> outcome A * files.

Definition ret {A} (a : A) : M A := fun fs => (Returned a, fs).
Definition raise {A} (e : exn) : M A := fun fs => (Raised e, fs).

Definition bind {A B} (m : M A) (f : A -> M B) : M B :=
  fun fs =>
    match m fs with
    | (Returned a, fs') => f a fs'
    | (Raised e, fs') => (Raised e, fs')
    end.

Notation "x <- m ;; k" := (bind m (fun x => k))
  (at level 100, m at next level, right associativity).
Notation "m ;;; k" := (bind m (fun _ => k))
  (at level 100, right associativity).

(** [try: m  except E: ...]: [handler e] is the handler of the clause
    that catches [e], if one does. *)
Definition try_except {A} (m : M A) (handler : exn -> option (M A)) : M A :=
  fun fs =>
    match m fs with
    | (Returned a, fs') => (Returned a, fs')
    | (Raised e, fs') =>
        match handler e with
        | Some h => h fs'
        | None => (Raised e, fs')
        end
    end.

(** [try: m  finally: cleanup]: the cleanup runs on every way out of [m];
    if it raises, its exception replaces the outcome of [m]. *)
Definition try_finally {A} (m : M A) (cleanup : M unit) : M A :=
  fun fs =>
    match m fs with
    | (o, fs') =>
        match cleanup fs' with
        | (Returned _, fs'') => (o, fs'')
        | (Raised e, fs'') => (Raised e, fs'')
        end
    end.

(** What the environment does during one call. *)
Record world : Type :=
  { tmp_name : string;       (* the name [NamedTemporaryFile] picks *)
    tmp_create_ok : bool;    (* the temporary file can be created *)
    yaml_import_ok : bool;   (* [import yaml] finds the module *)
    yaml_dump_ok : bool;     (* [yaml.dump] can write the rules *)
    close_ok : bool;         (* [temp_file.close()] can flush *)
    run : run_outcome;       (* what running the tool does *)
    unlink_ok : bool }.      (* [os.unlink] can remove the file *)

Section Methods.
Variable w : world.

(** [tempfile.NamedTemporaryFile(mode='w', suffix='.yaml', delete=False)] *)
Definition named_temporary_file : M string :=
  fun fs =>
    if tmp_create_ok w then (Returned (tmp_name w), {[tmp_name w]} ∪ fs)
    else (Raised OSError, fs).

Definition import_yaml : M unit :=
  if yaml_import_ok w then ret tt else raise ImportError.

Definition yaml_dump : M unit :=
  if yaml_dump_ok w then ret tt else raise YAMLError.

Definition close : M unit :=
  if close_ok w then ret tt else raise OSError.

Definition create_custom_rules_file : M string :=
  temp_file <- named_temporary_file ;;
  import_yaml ;;;
  yaml_dump ;;;
  close ;;;
  ret temp_file.

Definition subprocess_run : M (Z * stdout_json) :=
  match run w with
  | FileNotFound => raise FileNotFoundError
  | TimeoutExpired => raise TimeoutExpiredError
  | OtherError => raise RuntimeError
  | Completed returncode stdout => ret (returncode, stdout)
  end.

(** [json.loads(result.stdout)] followed by [findings.get('results', [])] *)
Definition json_loads (stdout : stdout_json) : M stdout_json :=
  match stdout with
  | NotJson => raise JSONDecodeError
  | _ => ret stdout
  end.

Definition get_results (findings : stdout_json) : M (list Semgrep.result) :=
  match findings with
  | JsonObject results => ret (default [] results)
  | _ => raise AttributeError
  end.

Definition os_unlink (path : string) : M unit :=
  fun fs =>
    if unlink_ok w then (Returned tt, fs ∖ {[path]}) else (Raised OSError, fs).

Definition analyze_with_custom_rules (file_path : string) : M (list Semgrep.result) :=
  rules_file <- create_custom_rules_file ;;
  try_finally
    (try_except
       (result <- subprocess_run ;;
        if (fst result =? 0)%Z then
          try_except
            (findings <- json_loads (snd result) ;; get_results findings)
            (fun e => match e with JSONDecodeError => Some (ret []) | _ => None end)
        else ret [])
       (fun _ => Some (ret [])))
    (try_except (os_unlink rules_file) (fun _ => Some (ret tt))).

End Methods.

(** *** The custom rules and their descriptions *)

(** One value of [self.custom_rules] (keys id, message, severity, languages
    and pattern-either, a list of one-key objects). *)
Record rule : Type :=
  { rule_id : string;
    rule_message : string;
    rule_severity : string;
    rule_languages : list string;
    rule_pattern_either : list string }.

(** A text between double quotes. *)
Definition quoted (s : string) : string :=
  String "034"%char (s ++ String "034"%char EmptyString).

(** [self.custom_rules], in insertion order. *)
Definition custom_rules : list (string * rule) :=
  [ ("sql_injection",
      {| rule_id := "sql-injection-detection";
         rule_message := "Potential SQL injection vulnerability detected";
         rule_severity := "ERROR";
         rule_languages := ["python"];
         rule_pattern_either :=
           [ "cursor.execute($QUERY + $VAR)";
             "cursor.execute(f" ++ quoted "...{$VAR}..." ++ ")";
             "cursor.execute(" ++ quoted "..." ++ " + $VAR + " ++ quoted "..." ++ ")";
             "$CURSOR.execute($QUERY % $VAR)" ] |});
    ("hardcoded_secrets",
      {| rule_id := "hardcoded-credentials";
         rule_message := "Hardcoded credentials detected";
         rule_severity := "ERROR";
         rule_languages := ["python"];
         rule_pattern_either :=
           [ "password=" ++ quoted "$PASSWORD";
             "api_key=" ++ quoted "$KEY";
             "secret=" ++ quoted "$SECRET";
             "token=" ++ quoted "$TOKEN" ] |});
    ("command_injection",
      {| rule_id := "command-injection";
         rule_message := "Potential command injection vulnerability";
         rule_severity := "ERROR";
         rule_languages := ["python"];
         rule_pattern_either :=
           [ "subprocess.call($CMD, shell=True)";
             "os.system($CMD)";
             "subprocess.run($CMD, shell=True)";
             "subprocess.Popen($CMD, shell=True)" ] |});
    ("path_traversal",
      {| rule_id := "path-traversal";
         rule_message := "Potential path traversal vulnerability";
         rule_severity := "ERROR";
         rule_languages := ["python"];
         rule_pattern_either :=
           [ "open(f" ++ quoted "...{$VAR}..." ++ ", ...)";
             "open($PATH + $VAR, ...)";
             "open($VAR, ...)" ] |});
    ("weak_crypto",
      {| rule_id := "weak-cryptography";
         rule_message := "Weak cryptographic algorithm detected";
         rule_severity := "WARNING";
         rule_languages := ["python"];
         rule_pattern_either :=
           [ "hashlib.md5(...)";
             "hashlib.sha1(...)";
             "random.randint(...)" ] |});
    ("unsafe_deserialization",
      {| rule_id := "unsafe-deserialization";
         rule_message := "Unsafe deserialization detected";
         rule_severity := "ERROR";
         rule_languages := ["python"];
         rule_pattern_either :=
           [ "pickle.loads($DATA)";
             "pickle.load($FILE)";
             "yaml.load($DATA)" ] |}) ]%string.

(** [rules_content["rules"]], the list written to the rules file:
    [list(self.custom_rules.values())]. *)
Definition rules_content : list rule := map snd custom_rules.

(** One value of the table of [get_vulnerability_details] (keys
    description, impact, fix, example_fix). *)
Record details : Type :=
  { det_description : string;
    det_impact : string;
    det_fix : string;
    det_example_fix : string }.

Definition vulnerability_info : gmap string details :=
  list_to_map
    [ ("sql-injection-detection",
        {| det_description := "SQL injection occurs when user input is directly concatenated into SQL queries without proper sanitization.";
           det_impact := "Attackers can execute arbitrary SQL commands, potentially accessing, modifying, or deleting data.";
           det_fix := "Use parameterized queries or prepared statements instead of string concatenation.";
           det_example_fix := "cursor.execute('SELECT * FROM users WHERE id = ?', (user_id,))" |});
      ("hardcoded-credentials",
        {| det_description := "Hardcoded credentials in source code pose a security risk.";
           det_impact := "Credentials can be exposed to anyone with access to the source code.";
           det_fix := "Use environment variables or secure configuration files.";
           det_example_fix := "password = os.getenv('DB_PASSWORD')" |});
      ("command-injection",
        {| det_description := "Command injection occurs when user input is used in system commands without proper validation.";
           det_impact := "Attackers can execute arbitrary system commands.";
           det_fix := "Validate and sanitize input, avoid shell=True, use subprocess with list arguments.";
           det_example_fix := "subprocess.run(['tar', '-czf', backup_file, source_dir])" |});
      ("path-traversal",
        {| det_description := "Path traversal allows attackers to access files outside the intended directory.";
           det_impact := "Attackers can read sensitive files from the system.";
           det_fix := "Validate file paths and use os.path.join() with proper validation.";
           det_example_fix := "safe_path = os.path.join(base_dir, os.path.basename(filename))" |});
      ("weak-cryptography",
        {| det_description := "Weak cryptographic algorithms are vulnerable to attacks.";
           det_impact := "Data can be easily compromised or passwords cracked.";
           det_fix := "Use strong algorithms like SHA-256 or bcrypt for password hashing.";
           det_example_fix := "import bcrypt; hashed = bcrypt.hashpw(password.encode(), bcrypt.gensalt())" |});
      ("unsafe-deserialization",
        {| det_description := "Unsafe deserialization can lead to code execution vulnerabilities.";
           det_impact := "Attackers can execute arbitrary code by providing malicious serialized data.";
           det_fix := "Use safe serialization formats like JSON, or validate data before deserialization.";
           det_example_fix := "import json; data = json.loads(user_input)" |}) ].

(** The answer for an identifier the table does not have. *)
Definition generic_details : details :=
  {| det_description := "Security vulnerability detected";
     det_impact := "Potential security risk";
     det_fix := "Review and fix the identified issue";
     det_example_fix := "Implement proper security measures" |}.

Definition get_vulnerability_details (rule_id : string) : details :=
  default generic_details (vulnerability_info !! rule_id).

End EnhancedSemgrepAnalyzer.

(** ** main.py: class SemgrepAnalyzer

    The methods run the external tool with its own rules and give the raw
    findings back; they are computations like those of
    [EnhancedSemgrepAnalyzer], which leave the files alone. *)

Module SemgrepAnalyzer.
Import Subprocess EnhancedSemgrepAnalyzer.

(** [subprocess.run(...)] with the given behaviour of the tool. *)
Definition subprocess_run (o : run_outcome) : M (Z * stdout_json) :=
  match o with
  | FileNotFound => raise FileNotFoundError
  | TimeoutExpired => raise TimeoutExpiredError
  | OtherError => raise RuntimeError
  | Completed returncode stdout => ret (returncode, stdout)
  end.

(** [check_semgrep_installation()]; [version] is what running the tool with
    --version does. *)
Definition check_semgrep_installation (version : run_outcome) : M bool :=
  try_except
    (result <- subprocess_run version ;; ret (fst result =? 0)%Z)
    (fun _ => Some (ret false)).

(** [run_semgrep_analysis(file_path, language)]; the three handlers print
    different messages and all return the empty list. *)
Definition run_semgrep_analysis (o : run_outcome) (file_path language : string)
    : M (list Semgrep.result) :=
  try_except
    (result <- subprocess_run o ;;
     if (fst result =? 0)%Z then
       try_except
         (findings <- json_loads (snd result) ;; get_results findings)
         (fun e => match e with JSONDecodeError => Some (ret []) | _ => None end)
     else ret [])
    (fun e =>
       match e with
       | TimeoutExpiredError => Some (ret [])
       | FileNotFoundError => Some (ret [])
       | _ => Some (ret [])
       end).

Definition analyze_code (version o : run_outcome) (file_path language : string)
    : M (list Semgrep.result) :=
  installed <- check_semgrep_installation version ;;
  if negb installed then ret []
  else
    findings <- run_semgrep_analysis o file_path language ;;
    ret findings.

End SemgrepAnalyzer.

(** ** The wording of the specification

    Definitions that follow the text of the specification rather than the
    code; the theorems below compare the code with them. *)

Module Spec.
Import AIBugPredictor.

(** The five severity buckets. *)
Definition buckets : list string := ["CRITICAL"; "HIGH"; "MEDIUM"; "LOW"; "INFO"].

(** A score is a number of [0,1]; the scores of a finding are such. *)
Definition score (q : Q) : Prop := (0 <= q /\ q <= 1)%Q.

Definition valid_prediction (p : prediction) : Prop :=
  score (pr_severity p) /\ score (pr_confidence p).

(** The number of externally reported findings of a given severity. *)
Fixpoint reported (level : string) (external : list Semgrep.result) : Z :=
  match external with
  | [] => 0
  | r :: rest =>
      (if decide (Semgrep.get_extra_severity r = Some level) then 1 else 0)
      + reported level rest
  end.

Definition external_component (external : list Semgrep.result) : Q :=
  (0.3 * inject_Z (reported "ERROR" external)
   + 0.2 * inject_Z (reported "WARNING" external)
   + 0.1 * inject_Z (reported "INFO" external))%Q.

Fixpoint heuristic_component (heuristic : list prediction) : Q :=
  match heuristic with
  | [] => 0
  | p :: rest => (pr_severity p * pr_confidence p + heuristic_component rest)%Q
  end.

(** The static base severity of a category. *)
Definition base_severity (category : string) : Q :=
  if decide (category = "sql_injection") then 0.90%Q
  else if decide (category = "buffer_overflow") then 0.95%Q
  else if decide (category = "xss") then 0.80%Q
  else if decide (category = "hardcoded_secrets") then 0.85%Q
  else if decide (category = "race_condition") then 0.70%Q
  else 0.50%Q.

(** [text] contains [word] (given in lower case) case-insensitively: some
    piece of [text] is [word] once its capitals are lowered. *)
Definition mentions (text word : string) : Prop :=
  exists pre mid post : string,
    text = (pre ++ mid ++ post)%string /\ Text.lower mid = word.

(** The common finding schema, as far as the two scanners fill it: the
    entries of [detect_vulnerabilities] carry a severity bucket and no
    score, those of [predict_vulnerabilities] two scores and no bucket. *)
Record finding : Type :=
  { category : string;
    line : Z;
    severity_bucket : option string;
    severity_score : option Q;
    confidence_score : option Q }.

Definition of_vulnerability (v : ModernBugPredictionGUI.vulnerability) : finding :=
  {| category := ModernBugPredictionGUI.v_type v;
     line := ModernBugPredictionGUI.v_line v;
     severity_bucket := Some (ModernBugPredictionGUI.v_severity v);
     severity_score := None;
     confidence_score := None |}.

Definition of_prediction (p : prediction) : finding :=
  {| category := pr_type p;
     line := Z.of_nat (pr_line p);
     severity_bucket := None;
     severity_score := Some (pr_severity p);
     confidence_score := Some (pr_confidence p) |}.

(** All the findings the built-in scans produce for one text. *)
Definition scan (file_path language content : string) : list finding :=
  map of_vulnerability (ModernBugPredictionGUI.detect_vulnerabilities file_path (Some content))
  ++ map of_prediction (predict_vulnerabilities content language).

(** The rules of the two scanners, in the order they are applied. *)
Definition builtin_rules : list (string * (Re.pattern * string)) :=
  flat_map (fun entry => map (pair (fst entry)) (snd entry)) ModernBugPredictionGUI.patterns.

Definition predictor_rules : list (string * Re.pattern) :=
  flat_map (fun entry => map (pair (fst entry)) (snd entry)) vulnerability_patterns.

(** The example line of the specification: password = "supersecretpw" *)
Definition password_line : string :=
  ("password = " ++ String Re.dquote ("supersecretpw" ++ String Re.dquote ""))%string.

(** A finding the external tool reports with the severity error. *)
Definition reported_error : Semgrep.result :=
  {| Semgrep.check_id := Some "python.lang.security.audit.eval";
     Semgrep.start := Some {| Semgrep.line := Some 3%Z |};
     Semgrep.extra :=
       Some {| Semgrep.message := Some "eval";
               Semgrep.severity := Some "error";
               Semgrep.lines := None |} |}.

(** A raw finding of the external tool with the severity ERROR. *)
Definition reported_error_upper : Semgrep.result :=
  {| Semgrep.check_id := Some "sql-injection-detection";
     Semgrep.start := Some {| Semgrep.line := Some 7%Z |};
     Semgrep.extra :=
       Some {| Semgrep.message := Some "Potential SQL injection vulnerability detected";
               Semgrep.severity := Some "ERROR";
               Semgrep.lines := None |} |}.

(** An environment without the yaml module: the temporary file can be
    created, the tool would run and report nothing, the file could be
    removed. *)
Definition world_without_yaml : EnhancedSemgrepAnalyzer.world :=
  {| EnhancedSemgrepAnalyzer.tmp_name := "/tmp/tmpk3x9.yaml";
     EnhancedSemgrepAnalyzer.tmp_create_ok := true;
     EnhancedSemgrepAnalyzer.yaml_import_ok := false;
     EnhancedSemgrepAnalyzer.yaml_dump_ok := true;
     EnhancedSemgrepAnalyzer.close_ok := true;
     EnhancedSemgrepAnalyzer.run :=
       Subprocess.Completed 0 (Subprocess.JsonObject (Some []));
     EnhancedSemgrepAnalyzer.unlink_ok := true |}.

(** An environment in which the rules file gets written. *)
Definition rules_file_written (w : EnhancedSemgrepAnalyzer.world) : Prop :=
  EnhancedSemgrepAnalyzer.tmp_create_ok w = true
  /\ EnhancedSemgrepAnalyzer.yaml_import_ok w = true
  /\ EnhancedSemgrepAnalyzer.yaml_dump_ok w = true
  /\ EnhancedSemgrepAnalyzer.close_ok w = true.

End Spec.

(** ** The wording of the specification, with binary64 scores *)

Module Spec64.
Import PrimFloat.
Local Open Scope float_scope.

(** A score is a number of [0,1]. *)
Definition score (x : float) : Prop := (0 <=? x) = true /\ (x <=? 1) = true.

Definition valid_prediction (p : Binary64.prediction) : Prop :=
  score (Binary64.pr_severity p) /\ score (Binary64.pr_confidence p).

(** The static base severity of a category. *)
Definition base_severity (category : string) : float :=
  if decide (category = "sql_injection") then 0.90
  else if decide (category = "buffer_overflow") then 0.95
  else if decide (category = "xss") then 0.80
  else if decide (category = "hardcoded_secrets") then 0.85
  else if decide (category = "race_condition") then 0.70
  else 0.50.

(** The severity score: the base, increased by 0.10, by a further 0.15,
    and at most 1.0. *)
Definition severity_score (category : string) (boost_user boost_admin : bool) : float :=
  let s := base_severity category in
  let s := if boost_user then s + 0.10 else s in
  let s := if boost_admin then s + 0.15 else s in
  if 1.0 <? s then 1.0 else s.

(** The same in exact arithmetic. *)
Definition exact_severity_score (category : string) (boost_user boost_admin : bool) : Q :=
  Qmin (Spec.base_severity category
        + (if boost_user then 0.10 else 0)
        + (if boost_admin then 0.15 else 0))%Q 1.0%Q.

(** The number of externally reported findings of a given severity, as a
    float. *)
Definition count (level : string) (external : list Semgrep.result) : float :=
  of_uint63 (Uint63.of_Z (Spec.reported level external)).

Definition external_component (external : list Semgrep.result) : float :=
  0.3 * count "ERROR" external + 0.2 * count "WARNING" external
  + 0.1 * count "INFO" external.

(** The sum of severity x confidence over the heuristic findings, added
    up in their order. *)
Fixpoint heuristic_sum (acc : float) (heuristic : list Binary64.prediction) : float :=
  match heuristic with
  | [] => acc
  | p :: rest =>
      heuristic_sum (acc + Binary64.pr_severity p * Binary64.pr_confidence p) rest
  end.

Definition heuristic_component (heuristic : list Binary64.prediction) : float :=
  heuristic_sum 0 heuristic.

Definition risk_total (external : list Semgrep.result)
    (heuristic : list Binary64.prediction) : float :=
  (external_component external + heuristic_component heuristic) / 10.


(** Raw findings of the external tool with the severities WARNING and
    INFO. *)
Definition reported_warning : Semgrep.result :=
  {| Semgrep.check_id := Some "weak-cryptography";
     Semgrep.start := Some {| Semgrep.line := Some 2%Z |};
     Semgrep.extra :=
       Some {| Semgrep.message := Some "Weak cryptographic algorithm detected";
               Semgrep.severity := Some "WARNING";
               Semgrep.lines := None |} |}.

Definition reported_info : Semgrep.result :=
  {| Semgrep.check_id := Some "python.lang.best-practice.open-never-closed";
     Semgrep.start := Some {| Semgrep.line := Some 5%Z |};
     Semgrep.extra :=
       Some {| Semgrep.message := Some "file object opened without a close";
               Semgrep.severity := Some "INFO";
               Semgrep.lines := None |} |}.

End Spec64.

(** * Properties *)

(** ** Text *)

Section TextFacts.
Import Text.

Lemma split_lines_length (s : string) :
  List.length (split_lines s) = count_newlines s + 1.
Proof.
  induction s as [|c s IH]; simpl; [reflexivity|].
  destruct (Ascii.eqb c newline); simpl.
  - now rewrite IH.
  - destruct (split_lines s) as [|l ls]; simpl in *; lia.
Qed.

Lemma count_newlines_take (n : nat) (s : string) :
  count_newlines (take n s) <= count_newlines s.
Proof.
  revert n; induction s as [|c s IH]; intros [|n]; simpl; try lia.
  specialize (IH n). lia.
Qed.

End TextFacts.

(** ** Re: where the matches of a scan start *)

Section ScanFacts.
Import Re.
Variable p : pattern.

Lemma scan_start_bounds (s : string) :
  forall prev pos skip m,
    In m (scan p prev s pos skip) -> pos <= fst m <= pos + String.length s.
Proof.
  induction s as [|c s IH]; intros prev pos skip m; simpl.
  - destruct skip; [destruct (match_at p prev ""); simpl|simpl]; intros H;
      try contradiction.
    destruct H as [<-|[]]; simpl; lia.
  - destruct skip as [|skip].
    + destruct (match_at p prev (String c s)) as [n|]; simpl.
      * intros [<-|H]; simpl; [lia|]. apply IH in H. lia.
      * intros H. apply IH in H. lia.
    + intros H. apply IH in H. lia.
Qed.

Lemma scan_starts_increase (s : string) :
  forall prev pos skip, StronglySorted lt (map fst (scan p prev s pos skip)).
Proof.
  induction s as [|c s IH]; intros prev pos skip; simpl.
  - destruct skip; [destruct (match_at p prev "")|]; simpl;
      repeat constructor.
  - destruct skip as [|skip]; [|apply IH].
    destruct (match_at p prev (String c s)) as [n|]; simpl; [|apply IH].
    constructor; [apply IH|].
    apply List.Forall_forall. intros i Hi. apply in_map_iff in Hi.
    destruct Hi as [m [<- Hm]]. apply scan_start_bounds in Hm. lia.
Qed.

Lemma finditer_start_le (s : string) (m : nat * string) :
  In m (finditer p s) -> fst m <= String.length s.
Proof. intros H. apply scan_start_bounds in H. lia. Qed.

End ScanFacts.

(** ** AIBugPredictor: complexity metrics and line numbers *)

Section Complexity.
Import AIBugPredictor.

Lemma code_and_comment_disjoint (line : string) :
  is_code_line line && is_comment_line line = false.
Proof.
  unfold is_code_line, is_comment_line.
  destruct (Text.startswith "#" (Text.strip line)); simpl.
  - now rewrite andb_false_r.
  - apply andb_false_r.
Qed.

Lemma disjoint_filters_length {A} (f g : A -> bool) (l : list A) :
  (forall x, f x && g x = false) ->
  List.length (List.filter f l) + List.length (List.filter g l) <= List.length l.
Proof.
  intros Hfg. induction l as [|x l IH]; simpl; [lia|].
  specialize (Hfg x).
  destruct (f x), (g x); simpl in *; try discriminate; lia.
Qed.

(** C9.  For every input text the number of code lines plus the number of
    comment lines is at most the number of lines: no line is counted both
    as a code line and as a comment line. *)
Theorem code_plus_comment_le_total (code : string) :
  let m := analyze_code_complexity code in
  code_lines m + comment_lines m <= total_lines m
  /\ forall line, is_code_line line && is_comment_line line = false.
Proof.
  simpl. split.
  - apply disjoint_filters_length, code_and_comment_disjoint.
  - apply code_and_comment_disjoint.
Qed.

Lemma in_predict_vulnerabilities (code language : string) (p : prediction) :
  In p (predict_vulnerabilities code language) ->
  exists vuln_type pat m,
    In (vuln_type, pat) Spec.predictor_rules /\
    In m (Re.finditer pat code) /\
    p = prediction_of code vuln_type m.
Proof.
  unfold predict_vulnerabilities, predictions_of_type, predictions_of_pattern.
  intros H. apply in_flat_map in H as [entry [Hentry H]].
  apply in_flat_map in H as [pat [Hpat H]].
  apply in_map_iff in H as [m [<- Hm]].
  exists (fst entry), pat, m. repeat split; [|assumption].
  unfold Spec.predictor_rules. apply in_flat_map.
  exists entry. split; [assumption|]. now apply in_map.
Qed.

(** C10.  For every input text, every prediction has a line number that is
    at least 1 and at most the number of lines of the text, which is its
    number of line breaks plus one. *)
Theorem prediction_line_in_range (code language : string) (p : prediction) :
  In p (predict_vulnerabilities code language) ->
  1 <= pr_line p <= total_lines (analyze_code_complexity code)
  /\ total_lines (analyze_code_complexity code) = Text.count_newlines code + 1.
Proof.
  intros H. apply in_predict_vulnerabilities in H as (t & pat & m & _ & _ & ->).
  simpl. rewrite split_lines_length.
  pose proof (count_newlines_take (fst m) code). lia.
Qed.

(** A match on the second of two lines. *)
Lemma prediction_line_in_range_witness :
  let code := (String "x" (String Text.newline Spec.password_line)) in
  exists p, In p (predict_vulnerabilities code "python")
            /\ pr_line p = 2
            /\ 1 <= pr_line p <= total_lines (analyze_code_complexity code).
Proof.
  intros code.
  assert (Hin : In (prediction_of code "hardcoded_secrets" (2, Spec.password_line))
                   (predict_vulnerabilities code "python"))
    by (vm_compute; left; reflexivity).
  eexists. split; [exact Hin|]. split; [reflexivity|].
  exact (proj1 (prediction_line_in_range code "python" _ Hin)).
Defined.

(** C8.  For the empty text both scans find nothing and the complexity
    analyzer gives one line, complexity 1, depth 0, no function and no
    class; all three are total functions, nothing is raised. *)
Theorem empty_input (file_path language : string) :
  predict_vulnerabilities "" language = []
  /\ ModernBugPredictionGUI.detect_vulnerabilities file_path (Some "") = []
  /\ analyze_code_complexity "" =
       {| total_lines := 1; code_lines := 0; comment_lines := 0;
          cyclomatic_complexity := 1; nesting_depth := 0;
          function_count := 0; class_count := 0 |}.
Proof. repeat split. Qed.

End Complexity.

(** ** AIBugPredictor: the risk score *)

Section RiskScore.
Import AIBugPredictor.
Local Open Scope Q_scope.

Lemma count_severity_reported (level : string) (results : list Semgrep.result) :
  Z.of_nat (count_severity level results) = Spec.reported level results.
Proof.
  unfold count_severity.
  induction results as [|r results IH]; simpl; [reflexivity|].
  rewrite <- IH.
  destruct (Semgrep.get_extra_severity r) as [s|].
  - destruct (String.eqb_spec s level) as [->|Hne].
    + rewrite decide_True by reflexivity. simpl List.length. lia.
    + rewrite decide_False by congruence. lia.
  - rewrite decide_False by discriminate. lia.
Qed.

Lemma fold_left_Qplus (l : list Q) (a : Q) :
  fold_left Qplus l a == a + fold_right Qplus 0 l.
Proof.
  revert a; induction l as [|x l IH]; intros a; simpl.
  - ring.
  - rewrite IH. ring.
Qed.

Lemma ai_score_heuristic (predictions : list prediction) :
  Qsum (map (fun p => pr_severity p * pr_confidence p) predictions)
  == Spec.heuristic_component predictions.
Proof.
  unfold Qsum. rewrite fold_left_Qplus, Qplus_0_l.
  induction predictions as [|p l IH]; simpl; [reflexivity|].
  now rewrite IH.
Qed.

Lemma Qplus_nonneg (a b : Q) : 0 <= a -> 0 <= b -> 0 <= a + b.
Proof.
  intros Ha Hb. rewrite <- (Qplus_0_l 0). now apply Qplus_le_compat.
Qed.

Lemma reported_nonneg (level : string) (results : list Semgrep.result) :
  (0 <= Spec.reported level results)%Z.
Proof.
  induction results as [|r l IH]; simpl; [lia|].
  destruct (decide _); lia.
Qed.

Lemma external_component_nonneg (results : list Semgrep.result) :
  0 <= Spec.external_component results.
Proof.
  unfold Spec.external_component.
  pose proof (reported_nonneg "ERROR" results) as HE.
  pose proof (reported_nonneg "WARNING" results) as HW.
  pose proof (reported_nonneg "INFO" results) as HI.
  assert (H : forall z, (0 <= z)%Z -> 0 <= inject_Z z)
    by (intros z Hz; change 0 with (inject_Z 0); now rewrite <- Zle_Qle).
  apply H in HE, HW, HI.
  repeat apply Qplus_nonneg; apply Qmult_le_0_compat; try assumption; discriminate.
Qed.

Lemma heuristic_component_nonneg (predictions : list prediction) :
  Forall Spec.valid_prediction predictions ->
  0 <= Spec.heuristic_component predictions.
Proof.
  induction 1 as [|p l [[Hs _] [Hc _]] _ IH]; simpl; [discriminate|].
  apply Qplus_nonneg; [now apply Qmult_le_0_compat|exact IH].
Qed.

(** What the code computes, for any findings: the total of the
    specification, bounded above by 1. *)
Lemma generate_risk_score_min (results : list Semgrep.result) (predictions : list prediction) :
  generate_risk_score results predictions
  == Qmin ((Spec.external_component results + Spec.heuristic_component predictions) / 10) 1.
Proof.
  unfold generate_risk_score.
  rewrite ai_score_heuristic, !count_severity_reported.
  unfold Spec.external_component.
  apply Q.min_compat; [|reflexivity].
  field.
Qed.

End RiskScore.

(** ** AIBugPredictor: severity and confidence scores *)

Section Scores.
Import AIBugPredictor Text.
Local Open Scope string_scope.

Lemma startswith_spec (p s : string) :
  startswith p s = true <-> exists post, s = p ++ post.
Proof.
  revert s; induction p as [|a p IH]; intros s; simpl.
  - split; [intros _; now exists s|reflexivity].
  - destruct s as [|b s].
    + split; [discriminate|intros [post H]; discriminate].
    + rewrite andb_true_iff, IH. split.
      * intros [Hab [post ->]]. apply Ascii.eqb_eq in Hab as ->. now exists post.
      * intros [post H]. injection H as -> ->.
        split; [apply Ascii.eqb_refl|now exists post].
Qed.

Lemma contains_spec (needle hay : string) :
  contains needle hay = true <-> exists pre post, hay = pre ++ needle ++ post.
Proof.
  induction hay as [|c hay IH]; simpl.
  - rewrite orb_false_r, startswith_spec. split.
    + intros [post H]. now exists "", post.
    + intros [pre [post H]]. destruct pre; [now exists post|discriminate].
  - rewrite orb_true_iff, startswith_spec, IH. split.
    + intros [[post H]|[pre [post ->]]].
      * now exists "", post.
      * now exists (String c pre), post.
    + intros [pre [post H]]. destruct pre as [|a pre]; simpl in H.
      * left. now exists post.
      * right. injection H as -> ->. now exists pre, post.
Qed.

Lemma map_chars_app (f : ascii -> ascii) (a b : string) :
  map_chars f (a ++ b) = map_chars f a ++ map_chars f b.
Proof. induction a as [|c a IH]; simpl; [reflexivity|now rewrite IH]. Qed.

Lemma map_chars_split (f : ascii -> ascii) (a b s : string) :
  map_chars f s = a ++ b ->
  exists s1 s2, s = s1 ++ s2 /\ map_chars f s1 = a /\ map_chars f s2 = b.
Proof.
  revert s; induction a as [|c a IH]; intros s H; simpl in H.
  - now exists "", s.
  - destruct s as [|d s]; simpl in H; [discriminate|].
    injection H as Hc H. apply IH in H as (s1 & s2 & -> & <- & <-).
    exists (String d s1), s2. simpl. now rewrite Hc.
Qed.

(** [word in text.lower()] is case-insensitive containment. *)
Lemma contains_lower_mentions (text word : string) :
  contains word (lower text) = true <-> Spec.mentions text word.
Proof.
  rewrite contains_spec. unfold Spec.mentions, lower. split.
  - intros (pre' & post' & H).
    apply map_chars_split in H as (pre & rest & -> & _ & H).
    apply map_chars_split in H as (mid & post & -> & H & _).
    now exists pre, mid, post.
  - intros (pre & mid & post & -> & <-).
    exists (map_chars lower_char pre), (map_chars lower_char post).
    now rewrite !map_chars_app.
Qed.

Lemma orb_reflects (a b : bool) (P R : Prop) :
  (a = true <-> P) -> (b = true <-> R) -> (a || b = true <-> P \/ R).
Proof. intros <- <-. apply orb_true_iff. Qed.

(** The confidence score is a constant of the category. *)
Lemma calculate_confidence_constant (vuln_type m1 m2 : string) :
  calculate_confidence vuln_type m1 = calculate_confidence vuln_type m2.
Proof. reflexivity. Qed.

End Scores.

(** ** Binary64: the sign of a sum, a product and a quotient

    The operations of [SpecFloat] are those the axioms of [FloatAxioms]
    give the primitive floats.  Rounding keeps the sign: the mantissa is
    shifted and incremented, never negated. *)

Section SpecFloatSigns.
Import SpecFloat Binary64.
Variables prec emax : Z.

Lemma shr_1_nonneg (mrs : shr_record) :
  (0 <= shr_m mrs)%Z -> (0 <= shr_m (shr_1 mrs))%Z.
Proof.
  destruct mrs as [m r s]. simpl.
  destruct m as [|p|p]; [simpl; lia| |lia].
  intros _. destruct p; simpl; lia.
Qed.

Lemma iter_pos_invariant {A : Type} (P : A -> Prop) (f : A -> A) :
  (forall x, P x -> P (f x)) -> forall n x, P x -> P (iter_pos f n x).
Proof.
  intros Hf. induction n as [n IH|n IH|]; intros x Hx; simpl; auto.
Qed.

Lemma shr_fexp_nonneg (m e : Z) (l : location) :
  (0 <= m)%Z -> (0 <= shr_m (fst (shr_fexp prec emax m e l)))%Z.
Proof.
  intros Hm. unfold shr_fexp, shr.
  assert (H0 : (0 <= shr_m (shr_record_of_loc m l))%Z)
    by (destruct l as [|[]]; exact Hm).
  destruct (_ - e)%Z; simpl; try exact H0.
  apply (iter_pos_invariant (fun mrs => (0 <= shr_m mrs)%Z));
    [apply shr_1_nonneg|exact H0].
Qed.

Lemma round_nearest_even_nonneg (m : Z) (l : location) :
  (0 <= m)%Z -> (0 <= round_nearest_even m l)%Z.
Proof.
  intros Hm. destruct l as [|[]]; simpl; try lia.
  destruct (Z.even m); lia.
Qed.

Lemma binary_round_aux_nonneg (mx ex : Z) (lx : location) :
  (0 <= mx)%Z -> nonneg (binary_round_aux prec emax false mx ex lx).
Proof.
  intros Hm. unfold binary_round_aux.
  pose proof (shr_fexp_nonneg mx ex lx Hm) as H1.
  destruct (shr_fexp prec emax mx ex lx) as [mrs' e']. simpl in H1.
  pose proof (shr_fexp_nonneg _ e' loc_Exact
                (round_nearest_even_nonneg _ (loc_of_shr_record mrs') H1)) as H2.
  destruct (shr_fexp prec emax _ e' loc_Exact) as [mrs'' e'']. simpl in H2.
  destruct (shr_m mrs'') as [|p|p]; simpl; [exact I| |lia].
  destruct (_ <=? _)%Z; reflexivity.
Qed.

Lemma binary_normalize_nonneg (m e : Z) :
  (0 <= m)%Z -> nonneg (binary_normalize prec emax m e false).
Proof.
  intros Hm. destruct m as [|p|p]; simpl; [exact I| |lia].
  unfold binary_round. destruct (shl_align _ _ _) as [mz ez].
  apply binary_round_aux_nonneg. lia.
Qed.

Lemma SFadd_nonneg (x y : spec_float) :
  nonneg x -> nonneg y -> nonneg (SFadd prec emax x y).
Proof.
  destruct x as [sx|sx| |sx mx ex], y as [sy|sy| |sy my ey]; simpl;
    try tauto; try (intros; subst; simpl; tauto).
  - intros _ _. destruct sx, sy; exact I.
  - intros -> ->. apply binary_normalize_nonneg. simpl. lia.
Qed.

Lemma SFmul_nonneg (x y : spec_float) :
  nonneg x -> positive_finite y -> nonneg (SFmul prec emax x y).
Proof.
  destruct x as [sx|sx| |sx mx ex], y as [sy|sy| |sy my ey]; simpl; try tauto.
  - intros -> ->. reflexivity.
  - intros -> ->. apply binary_round_aux_nonneg. lia.
Qed.

Lemma SFmul_finite_nonneg (x y : spec_float) :
  finite_nonneg x -> finite_nonneg y -> nonneg (SFmul prec emax x y).
Proof.
  destruct x as [sx|sx| |sx mx ex], y as [sy|sy| |sy my ey]; simpl; try tauto.
  intros -> ->. apply binary_round_aux_nonneg. lia.
Qed.

Lemma SFdiv_nonneg (x y : spec_float) :
  nonneg x -> positive_finite y -> nonneg (SFdiv prec emax x y).
Proof.
  destruct x as [sx|sx| |sx mx ex], y as [sy|sy| |sy my ey]; simpl; try tauto.
  - intros -> ->. reflexivity.
  - intros -> ->. unfold SFdiv_core_binary.
    set (m' := match _ with Z0 => _ | Zpos _ => _ | Zneg _ => _ end).
    assert (Hm' : (0 <= m')%Z).
    { unfold m'. destruct (_ - _ - _)%Z; try lia. apply Z.shiftl_nonneg. lia. }
    pose proof (Z_div_mod m' (Zpos my) eq_refl) as Hdiv.
    destruct (Z.div_eucl m' (Zpos my)) as [q r].
    apply binary_round_aux_nonneg. nia.
Qed.

Lemma SFmul_comm (x y : spec_float) : SFmul prec emax x y = SFmul prec emax y x.
Proof.
  destruct x as [sx|sx| |sx mx ex], y as [sy|sy| |sy my ey]; simpl;
    try reflexivity; try (now rewrite xorb_comm).
  now rewrite xorb_comm, Pos.mul_comm, Z.add_comm.
Qed.

Lemma SFcompare_antisym (x y : spec_float) :
  SFcompare y x = option_map CompOpp (SFcompare x y).
Proof.
  destruct x as [sx|sx| |sx mx ex], y as [sy|sy| |sy my ey]; simpl; try reflexivity;
    try (destruct sx; reflexivity); try (destruct sy; reflexivity);
    try (destruct sx, sy; reflexivity).
  destruct sx, sy; simpl; try reflexivity;
    rewrite (Z.compare_antisym ex ey); destruct (ex ?= ey)%Z; simpl; try reflexivity;
    rewrite (Pos.compare_cont_antisym mx my Eq); simpl;
    destruct (Pos.compare_cont Eq mx my); reflexivity.
Qed.

Lemma SFleb_zero_nonneg (x : spec_float) (s : bool) :
  SFleb (S754_zero s) x = true <-> nonneg x.
Proof.
  destruct x as [sx|sx| |sx mx ex]; unfold SFleb; simpl;
    try tauto; try (split; [discriminate|intros []]);
    destruct sx; split; try reflexivity; discriminate.
Qed.

Lemma SFltb_false_SFleb (x y : spec_float) :
  SFltb y x = false -> x <> S754_nan -> y <> S754_nan -> SFleb x y = true.
Proof.
  unfold SFltb, SFleb. rewrite (SFcompare_antisym x y).
  destruct (SFcompare x y) as [[]|] eqn:H; simpl; try reflexivity; try discriminate.
  intros _ Hx Hy.
  destruct x as [sx|sx| |sx mx ex], y as [sy|sy| |sy my ey]; simpl in H;
    try discriminate; congruence.
Qed.

Lemma nonneg_not_nan (x : spec_float) : nonneg x -> x <> S754_nan.
Proof. destruct x; simpl; try discriminate. intros []. Qed.

End SpecFloatSigns.

Section Binary64Signs.
Import PrimFloat SpecFloat FloatOps FloatAxioms Binary64.
Local Open Scope float_scope.

Lemma add_nonneg (x y : float) :
  nonneg (Prim2SF x) -> nonneg (Prim2SF y) -> nonneg (Prim2SF (x + y)).
Proof. rewrite add_spec. apply SFadd_nonneg. Qed.

Lemma mul_nonneg (x y : float) :
  nonneg (Prim2SF x) -> positive_finite (Prim2SF y) -> nonneg (Prim2SF (x * y)).
Proof. rewrite mul_spec. apply SFmul_nonneg. Qed.

Lemma mul_finite_nonneg (x y : float) :
  finite_nonneg (Prim2SF x) -> finite_nonneg (Prim2SF y) -> nonneg (Prim2SF (x * y)).
Proof. rewrite mul_spec. apply SFmul_finite_nonneg. Qed.

Lemma div_nonneg (x y : float) :
  nonneg (Prim2SF x) -> positive_finite (Prim2SF y) -> nonneg (Prim2SF (x / y)).
Proof. rewrite div_spec. apply SFdiv_nonneg. Qed.

Lemma mul_comm (x y : float) : x * y = y * x.
Proof. apply Prim2SF_inj. rewrite !mul_spec. apply SFmul_comm. Qed.

Lemma of_uint63_nonneg (n : PrimInt63.int) : nonneg (Prim2SF (of_uint63 n)).
Proof.
  rewrite of_uint63_spec. apply binary_normalize_nonneg.
  apply Uint63.to_Z_bounded.
Qed.

(** A score is a zero or a positive number. *)
Lemma score_finite_nonneg (x : float) :
  Spec64.score x -> finite_nonneg (Prim2SF x).
Proof.
  unfold Spec64.score. rewrite !leb_spec.
  change (Prim2SF 0) with (S754_zero false).
  intros [H0 H1]. apply SFleb_zero_nonneg in H0.
  destruct (Prim2SF x) as [s|s| |s m e]; simpl in *; try assumption.
  subst s. discriminate H1.
Qed.

(** Bounded above by 1, a zero, a positive number or plus infinity is a
    score. *)
Lemma min_one_score (t : float) :
  nonneg (Prim2SF t) -> Spec64.score (min t 1).
Proof.
  intros Ht. unfold min.
  destruct (1 <? t) eqn:Hlt; [split; reflexivity|].
  unfold Spec64.score. rewrite !leb_spec. rewrite ltb_spec in Hlt.
  split.
  - change (Prim2SF 0) with (S754_zero false). now apply SFleb_zero_nonneg.
  - apply SFltb_false_SFleb; [exact Hlt|now apply nonneg_not_nan|].
    vm_compute. discriminate.
Qed.


End Binary64Signs.

(** ** Binary64: the severity score *)

Section Severity64.
Import PrimFloat Text.
Local Open Scope string_scope.

Lemma severity_weight_base64 (vuln_type : string) :
  default 0.5%float (Binary64.severity_weights !! vuln_type)
  = Spec64.base_severity vuln_type.
Proof.
  unfold Spec64.base_severity.
  repeat case_decide; subst; try reflexivity.
  unfold Binary64.severity_weights. simpl list_to_map.
  rewrite !lookup_insert_ne by congruence.
  rewrite lookup_empty. reflexivity.
Qed.

Lemma calculate_severity_score (vuln_type match_ : string) :
  Binary64.calculate_severity vuln_type match_
  = Spec64.severity_score vuln_type
      (contains "user" (lower match_) || contains "input" (lower match_))
      (contains "admin" (lower match_) || contains "root" (lower match_)).
Proof.
  unfold Binary64.calculate_severity, Spec64.severity_score, Binary64.min.
  rewrite severity_weight_base64. reflexivity.
Qed.

(** The 24 values of the severity score. *)
Lemma severity_score_close (category : string) (boost_user boost_admin : bool) :
  let s := Spec64.severity_score category boost_user boost_admin in
  Spec64.score s
  /\ (Qabs (Binary64.to_Q s - Spec64.exact_severity_score category boost_user boost_admin)
      <= 1 # 2 ^ 53)%Q.
Proof.
  unfold Spec64.severity_score, Spec64.exact_severity_score,
    Spec64.base_severity, Spec.base_severity, Spec64.score.
  repeat case_decide; destruct boost_user, boost_admin;
    (split; [split; reflexivity|apply Qle_bool_imp_le; vm_compute; reflexivity]).
Qed.

(** C2.  For every category and matched text, the severity score is the
    base constant of the category (0.90, 0.95, 0.80, 0.85, 0.70 for the
    five known ones, 0.50 otherwise), plus 0.10 when the text contains
    user or input case-insensitively, plus a further 0.15 when it
    contains admin or root case-insensitively, bounded above by 1.0; the
    additions are those of binary64, in this order, and the score is
    within 2^-53 of the sum in exact arithmetic. *)
Theorem calculate_severity_spec (vuln_type match_ : string) :
  exists boost_user boost_admin : bool,
    (boost_user = true <-> Spec.mentions match_ "user" \/ Spec.mentions match_ "input")
    /\ (boost_admin = true <-> Spec.mentions match_ "admin" \/ Spec.mentions match_ "root")
    /\ Binary64.calculate_severity vuln_type match_
       = Spec64.severity_score vuln_type boost_user boost_admin
    /\ (Qabs (Binary64.to_Q (Binary64.calculate_severity vuln_type match_)
              - Qmin (Spec.base_severity vuln_type
                      + (if boost_user then 0.10 else 0)
                      + (if boost_admin then 0.15 else 0)) 1.0)
        <= 1 # 2 ^ 53)%Q.
Proof.
  exists (contains "user" (lower match_) || contains "input" (lower match_))%bool,
         (contains "admin" (lower match_) || contains "root" (lower match_))%bool.
  split; [|split; [|split]].
  - apply orb_reflects; apply contains_lower_mentions.
  - apply orb_reflects; apply contains_lower_mentions.
  - apply calculate_severity_score.
  - rewrite calculate_severity_score. apply severity_score_close.
Qed.

(** Two scores that differ from the decimal sum in the last place:
    0.8 + 0.15 and 0.7 + 0.1. *)
Lemma calculate_severity_rounded :
  Binary64.calculate_severity "xss" "innerHTML = admin +" = 0.9500000000000001%float
  /\ Binary64.calculate_severity "race_condition" "user" = 0.7999999999999999%float
  /\ Binary64.calculate_severity "sql_injection" "execute(user_input" = 1%float.
Proof. repeat split; vm_compute; reflexivity. Qed.

(** The scores of every finding of the predictor are scores. *)
Lemma binary64_prediction_valid (code language : string) (p : Binary64.prediction) :
  In p (Binary64.predict_vulnerabilities code language) -> Spec64.valid_prediction p.
Proof.
  unfold Binary64.predict_vulnerabilities. intros H.
  apply in_flat_map in H as [entry [_ H]].
  unfold Binary64.predictions_of_type in H. apply in_flat_map in H as [pat [_ H]].
  unfold Binary64.predictions_of_pattern in H. apply in_map_iff in H as [m [<- _]].
  unfold Spec64.valid_prediction.
  cbn [Binary64.pr_severity Binary64.pr_confidence Binary64.prediction_of].
  split.
  - rewrite calculate_severity_score. apply severity_score_close.
  - unfold Binary64.calculate_confidence.
    generalize (fst entry). intros vuln_type.
    destruct (decide (vuln_type = "sql_injection")) as [->|]; [split; reflexivity|].
    destruct (decide (vuln_type = "xss")) as [->|]; [split; reflexivity|].
    destruct (decide (vuln_type = "hardcoded_secrets")) as [->|]; [split; reflexivity|].
    destruct (decide (vuln_type = "buffer_overflow")) as [->|]; [split; reflexivity|].
    destruct (decide (vuln_type = "race_condition")) as [->|]; [split; reflexivity|].
    unfold Binary64.confidence_map. simpl list_to_map.
    rewrite !lookup_insert_ne by congruence. rewrite lookup_empty.
    split; reflexivity.
Qed.

Lemma Forall2_flat_map {A B C : Type} (R : B -> C -> Prop) (f : A -> list B)
    (g : A -> list C) (l : list A) :
  (forall x, Forall2 R (f x) (g x)) -> Forall2 R (flat_map f l) (flat_map g l).
Proof.
  intros H. induction l as [|x l IH]; simpl; [constructor|].
  apply Forall2_app; [apply H|exact IH].
Qed.

Lemma Forall2_map_map {A B C : Type} (R : B -> C -> Prop) (f : A -> B) (g : A -> C)
    (l : list A) :
  (forall x, R (f x) (g x)) -> Forall2 R (map f l) (map g l).
Proof.
  intros H. induction l as [|x l IH]; simpl; constructor; auto.
Qed.

(** The two readings of a score are within 2^-53 of one another. *)
Lemma calculate_severity_readings (vuln_type match_ : string) :
  (Qabs (Binary64.to_Q (Binary64.calculate_severity vuln_type match_)
         - AIBugPredictor.calculate_severity vuln_type match_) <= 1 # 2 ^ 53)%Q.
Proof.
  unfold Binary64.calculate_severity, AIBugPredictor.calculate_severity.
  destruct (contains "user" (lower match_) || contains "input" (lower match_))%bool,
    (contains "admin" (lower match_) || contains "root" (lower match_))%bool;
    (destruct (decide (vuln_type = "sql_injection")) as [->|];
       [apply Qle_bool_imp_le; vm_compute; reflexivity|];
     destruct (decide (vuln_type = "xss")) as [->|];
       [apply Qle_bool_imp_le; vm_compute; reflexivity|];
     destruct (decide (vuln_type = "hardcoded_secrets")) as [->|];
       [apply Qle_bool_imp_le; vm_compute; reflexivity|];
     destruct (decide (vuln_type = "buffer_overflow")) as [->|];
       [apply Qle_bool_imp_le; vm_compute; reflexivity|];
     destruct (decide (vuln_type = "race_condition")) as [->|];
       [apply Qle_bool_imp_le; vm_compute; reflexivity|];
     unfold Binary64.severity_weights, AIBugPredictor.severity_weights;
     simpl list_to_map;
     rewrite !lookup_insert_ne by congruence; rewrite !lookup_empty;
     apply Qle_bool_imp_le; vm_compute; reflexivity).
Qed.

Lemma calculate_confidence_readings (vuln_type match_ : string) :
  (Qabs (Binary64.to_Q (Binary64.calculate_confidence vuln_type match_)
         - AIBugPredictor.calculate_confidence vuln_type match_) <= 1 # 2 ^ 53)%Q.
Proof.
  unfold Binary64.calculate_confidence, AIBugPredictor.calculate_confidence.
  destruct (decide (vuln_type = "sql_injection")) as [->|];
    [apply Qle_bool_imp_le; vm_compute; reflexivity|].
  destruct (decide (vuln_type = "xss")) as [->|];
    [apply Qle_bool_imp_le; vm_compute; reflexivity|].
  destruct (decide (vuln_type = "hardcoded_secrets")) as [->|];
    [apply Qle_bool_imp_le; vm_compute; reflexivity|].
  destruct (decide (vuln_type = "buffer_overflow")) as [->|];
    [apply Qle_bool_imp_le; vm_compute; reflexivity|].
  destruct (decide (vuln_type = "race_condition")) as [->|];
    [apply Qle_bool_imp_le; vm_compute; reflexivity|].
  unfold Binary64.confidence_map, AIBugPredictor.confidence_map.
  simpl list_to_map.
  rewrite !lookup_insert_ne by congruence. rewrite !lookup_empty.
  apply Qle_bool_imp_le; vm_compute; reflexivity.
Qed.

(** The two readings of the scan agree: the same findings, with scores
    within 2^-53 of one another. *)
Lemma predict_vulnerabilities_readings (code language : string) :
  Forall2
    (fun (p : Binary64.prediction) (q : AIBugPredictor.prediction) =>
       Binary64.pr_type p = AIBugPredictor.pr_type q
       /\ Binary64.pr_line p = AIBugPredictor.pr_line q
       /\ Binary64.pr_suggestion p = AIBugPredictor.pr_suggestion q
       /\ Binary64.pr_match p = AIBugPredictor.pr_match q
       /\ (Qabs (Binary64.to_Q (Binary64.pr_severity p) - AIBugPredictor.pr_severity q)
           <= 1 # 2 ^ 53)%Q
       /\ (Qabs (Binary64.to_Q (Binary64.pr_confidence p) - AIBugPredictor.pr_confidence q)
           <= 1 # 2 ^ 53)%Q)
    (Binary64.predict_vulnerabilities code language)
    (AIBugPredictor.predict_vulnerabilities code language).
Proof.
  apply Forall2_flat_map. intros entry.
  apply Forall2_flat_map. intros pat.
  apply Forall2_map_map. intros m.
  cbn [Binary64.prediction_of AIBugPredictor.prediction_of
       Binary64.pr_type Binary64.pr_line Binary64.pr_suggestion Binary64.pr_match
       Binary64.pr_severity Binary64.pr_confidence
       AIBugPredictor.pr_type AIBugPredictor.pr_line AIBugPredictor.pr_suggestion
       AIBugPredictor.pr_match AIBugPredictor.pr_severity AIBugPredictor.pr_confidence].
  repeat split.
  - apply calculate_severity_readings.
  - apply calculate_confidence_readings.
Qed.

End Severity64.

(** ** Binary64: the risk score *)

Section RiskScore64.
Import PrimFloat SpecFloat FloatOps Binary64.
Local Open Scope float_scope.

Lemma sum_heuristic (predictions : list prediction) (acc : float) :
  fold_left add (map (fun p => pr_severity p * pr_confidence p) predictions) acc
  = Spec64.heuristic_sum acc predictions.
Proof.
  revert acc. induction predictions as [|p l IH]; intros acc; simpl; [reflexivity|].
  apply IH.
Qed.

(** What the code computes, for any findings: the total of the
    specification, bounded above by 1. *)
Lemma generate_risk_score_total (results : list Semgrep.result)
    (predictions : list prediction) :
  generate_risk_score results predictions
  = min (Spec64.risk_total results predictions) 1.
Proof.
  unfold generate_risk_score, Spec64.risk_total, Spec64.external_component,
    Spec64.heuristic_component, Spec64.count, of_len, sum.
  rewrite sum_heuristic, !count_severity_reported.
  rewrite (mul_comm 0.3), (mul_comm 0.2), (mul_comm 0.1). reflexivity.
Qed.

Lemma external_component_nonneg64 (results : list Semgrep.result) :
  nonneg (Prim2SF (Spec64.external_component results)).
Proof.
  unfold Spec64.external_component, Spec64.count.
  rewrite (mul_comm 0.3), (mul_comm 0.2), (mul_comm 0.1).
  repeat apply add_nonneg; apply mul_nonneg; try apply of_uint63_nonneg; reflexivity.
Qed.

Lemma heuristic_sum_nonneg (predictions : list prediction) (acc : float) :
  nonneg (Prim2SF acc) ->
  Forall Spec64.valid_prediction predictions ->
  nonneg (Prim2SF (Spec64.heuristic_sum acc predictions)).
Proof.
  intros Hacc Hvalid. revert acc Hacc.
  induction Hvalid as [|p l [Hs Hc] _ IH]; intros acc Hacc; simpl; [exact Hacc|].
  apply IH, add_nonneg; [exact Hacc|].
  apply mul_finite_nonneg; now apply score_finite_nonneg.
Qed.

Lemma risk_total_nonneg (results : list Semgrep.result) (predictions : list prediction) :
  Forall Spec64.valid_prediction predictions ->
  nonneg (Prim2SF (Spec64.risk_total results predictions)).
Proof.
  intros Hvalid. unfold Spec64.risk_total, Spec64.heuristic_component.
  apply div_nonneg; [|reflexivity].
  apply add_nonneg; [apply external_component_nonneg64|].
  apply heuristic_sum_nonneg; [exact I|exact Hvalid].
Qed.




(** The risk score of the findings of a scan lies in [0,1]. *)
Lemma binary64_risk_score_of_scan (results : list Semgrep.result) (code language : string) :
  Spec64.score (generate_risk_score results (predict_vulnerabilities code language)).
Proof.
  rewrite generate_risk_score_total.
  apply min_one_score, risk_total_nonneg, List.Forall_forall.
  intros p. apply binary64_prediction_valid.
Qed.

(** Totals that differ from the decimal value in the last place: a
    warning and an information give (0.2 + 0.1) / 10. *)
Lemma generate_risk_score_rounded :
  generate_risk_score [Spec64.reported_warning; Spec64.reported_info] []
  = 0.030000000000000006
  /\ generate_risk_score [Spec.reported_error_upper] [] = 0.03
  /\ generate_risk_score [Spec64.reported_warning] [] = 0.02.
Proof. repeat split; vm_compute; reflexivity. Qed.

End RiskScore64.

(** ** ModernBugPredictionGUI: severity levels of the built-in findings *)

Section Severity.
Import ModernBugPredictionGUI.
Local Open Scope string_scope.

Lemma in_detect_vulnerabilities (file_path : string) (read : option string)
    (v : vulnerability) :
  In v (detect_vulnerabilities file_path read) ->
  exists rule, In rule Spec.builtin_rules
               /\ v_type v = fst rule
               /\ v_description v = snd (snd rule)
               /\ v_severity v = get_severity (fst rule).
Proof.
  unfold detect_vulnerabilities.
  destruct read as [content|]; [|intros []].
  intros H. apply in_flat_map in H as [entry [Hentry H]].
  unfold scan_type in H. apply in_flat_map in H as [pd [Hpd H]].
  unfold scan_pattern in H. apply in_flat_map in H as [[n l] [_ H]].
  destruct (Re.search (fst pd) l); [|destruct H].
  destruct H as [<-|[]]. cbn [v_type v_description v_severity].
  exists (fst entry, pd). repeat split.
  unfold Spec.builtin_rules. apply in_flat_map.
  exists entry. split; [assumption|]. now apply in_map.
Qed.

(** The categories of the built-in rules are the eight display names. *)
Lemma builtin_rule_types (rule : string * (Re.pattern * string)) :
  In rule Spec.builtin_rules ->
  In (fst rule) (critical_types ++ high_types ++ medium_types).
Proof.
  intros H. apply (in_map fst) in H.
  revert H. generalize (fst rule). intros t.
  let names := eval vm_compute in (map fst Spec.builtin_rules) in
  change (map fst Spec.builtin_rules) with names.
  simpl. intuition.
Qed.

Lemma eqb_ne (a b : string) : a <> b -> String.eqb a b = false.
Proof. apply String.eqb_neq. Qed.

(** C5.  The table from category to severity level is fixed.  The code
    names the categories by their display names: SQL Injection, Command
    Injection, Unsafe Deserialization and Hardcoded Credentials (the
    sql_injection, command_injection, unsafe_deserialization and
    hardcoded_secrets of the specification) are CRITICAL, Cross-Site
    Scripting (XSS) and Path Traversal are HIGH, Weak Cryptography and
    Information Disclosure are MEDIUM, and every category that is not in
    the table is LOW; every built-in finding carries the level of its
    category. *)
Theorem get_severity_table (vuln_type : string) :
  (In vuln_type ["SQL Injection"; "Command Injection"; "Unsafe Deserialization";
                 "Hardcoded Credentials"] -> get_severity vuln_type = "CRITICAL")
  /\ (In vuln_type ["Cross-Site Scripting (XSS)"; "Path Traversal"] ->
      get_severity vuln_type = "HIGH")
  /\ (In vuln_type ["Weak Cryptography"; "Information Disclosure"] ->
      get_severity vuln_type = "MEDIUM")
  /\ (~ In vuln_type ["SQL Injection"; "Command Injection"; "Unsafe Deserialization";
                      "Hardcoded Credentials"; "Cross-Site Scripting (XSS)";
                      "Path Traversal"; "Weak Cryptography"; "Information Disclosure"] ->
      get_severity vuln_type = "LOW")
  /\ (forall file_path read v,
        In v (detect_vulnerabilities file_path read) ->
        v_severity v = get_severity (v_type v)).
Proof.
  split; [|split; [|split; [|split]]].
  - simpl. intuition; subst; reflexivity.
  - simpl. intuition; subst; reflexivity.
  - simpl. intuition; subst; reflexivity.
  - intros Hnot. simpl in Hnot.
    unfold get_severity, mem, critical_types, high_types, medium_types. simpl.
    rewrite !eqb_ne; [reflexivity|..]; intros ->; apply Hnot; tauto.
  - intros file_path read v Hv.
    apply in_detect_vulnerabilities in Hv as (rule & _ & -> & _ & ->). reflexivity.
Qed.

Lemma get_severity_table_witness :
  get_severity "SQL Injection" = "CRITICAL"
  /\ get_severity "Path Traversal" = "HIGH"
  /\ get_severity "Weak Cryptography" = "MEDIUM"
  /\ get_severity "Buffer Overflow" = "LOW".
Proof.
  split; [|split; [|split]].
  - apply (get_severity_table "SQL Injection"). simpl. tauto.
  - apply (get_severity_table "Path Traversal"). simpl. tauto.
  - apply (get_severity_table "Weak Cryptography"). simpl. tauto.
  - apply (get_severity_table "Buffer Overflow"). simpl.
    intros H. repeat destruct H as [H|H]; try discriminate H. exact H.
Defined.

End Severity.

(** ** ModernBugPredictionGUI: findings of the external tool *)

Section ExternalFindings.
Import ModernBugPredictionGUI.
Local Open Scope string_scope.

(** Against C6 as stated: the severity of a reported finding is upper-cased
    and nothing more; error becomes ERROR, which is none of the five
    buckets, is not INFO and is counted nowhere in the histogram. *)
Lemma reported_error_keeps_severity :
  exists v,
    run_semgrep_analysis "app.py"
      (Subprocess.Completed 0 (Subprocess.JsonObject (Some [Spec.reported_error]))) = [v]
    /\ v_severity v = "ERROR"
    /\ ~ In (v_severity v) Spec.buckets
    /\ categorize_vulnerabilities [v] = empty_categories.
Proof.
  eexists. split; [reflexivity|]. split; [reflexivity|]. split.
  - simpl. intros H. repeat destruct H as [H|H]; try discriminate H. exact H.
  - reflexivity.
Qed.

(** C6, amended.  For every finding reported by the external tool, the
    entry made of it has as line the reported start line, or 0 when there
    is none, and as severity the reported severity upper-cased, or INFO
    when there is none; the severity is not mapped into the five
    buckets. *)
Theorem semgrep_vulnerability_fields (file_path : string) (finding : Semgrep.result) :
  let v := semgrep_vulnerability file_path finding in
  v_line v = match Semgrep.start finding with
             | Some {| Semgrep.line := Some l |} => l
             | _ => 0%Z
             end
  /\ v_severity v = match Semgrep.extra finding with
                    | Some {| Semgrep.severity := Some s |} => Text.upper s
                    | _ => "INFO"
                    end
  /\ v_source v = Some "Semgrep"
  /\ forall results,
       run_semgrep_analysis file_path
         (Subprocess.Completed 0 (Subprocess.JsonObject (Some results)))
       = map (semgrep_vulnerability file_path) results.
Proof.
  destruct finding as [id [[[l|]]|] [[msg [s|] ls]|]]; repeat split.
Qed.

End ExternalFindings.

(** ** The example line of the specification *)

Section PasswordLine.
Import AIBugPredictor ModernBugPredictionGUI.
Local Open Scope string_scope.

(** Against C7 as stated: no finding of the built-in scans has both the
    category hardcoded_secrets and the bucket CRITICAL; the entries with that
    category come from [predict_vulnerabilities] and carry scores but no
    bucket, the entries with a bucket come from [detect_vulnerabilities]
    and carry a display name as category. *)
Lemma no_critical_hardcoded_secrets :
  ~ exists file_path language content f,
      In f (Spec.scan file_path language content)
      /\ Spec.category f = "hardcoded_secrets"
      /\ Spec.severity_bucket f = Some "CRITICAL".
Proof.
  intros (file_path & language & content & f & Hin & Hcat & Hbucket).
  unfold Spec.scan in Hin. apply in_app_or in Hin as [Hin|Hin];
    apply in_map_iff in Hin as [x [<- Hx]]; [|discriminate Hbucket].
  apply in_detect_vulnerabilities in Hx as (rule & Hrule & Htype & _).
  apply builtin_rule_types in Hrule. rewrite <- Htype in Hrule.
  simpl in Hcat. rewrite Hcat in Hrule. simpl in Hrule.
  repeat destruct Hrule as [Hrule|Hrule]; try discriminate Hrule. exact Hrule.
Qed.

(** C7, amended.  For the input made of the line password = "supersecretpw",
    the predictor produces one finding, of category hardcoded_secrets, with
    severity score 0.85 and confidence score 0.90, the confidence score
    being a constant of the category whatever the matched text; the bucket
    CRITICAL is carried by the finding of the line-by-line scan for the
    same line, whose category is Hardcoded Credentials. *)
Theorem password_line_findings (file_path language : string) :
  predict_vulnerabilities Spec.password_line language =
    [ {| pr_type := "hardcoded_secrets";
         pr_line := 1;
         pr_severity := 0.85%Q;
         pr_confidence := 0.9%Q;
         pr_suggestion := "Move secrets to environment variables or secure configuration files";
         pr_match := Spec.password_line |} ]
  /\ (forall vuln_type m1 m2 : string,
        calculate_confidence vuln_type m1 = calculate_confidence vuln_type m2)
  /\ detect_vulnerabilities file_path (Some Spec.password_line) =
       [ {| v_type := "Hardcoded Credentials";
            v_description := "Hardcoded password";
            v_line := 1%Z;
            v_code := Spec.password_line;
            v_severity := "CRITICAL";
            v_file := file_path;
            v_source := None |} ].
Proof.
  split; [|split].
  - vm_compute. reflexivity.
  - reflexivity.
  - vm_compute. reflexivity.
Qed.

End PasswordLine.

(** ** The order of the findings *)

Section Order.
Import AIBugPredictor ModernBugPredictionGUI.
Local Open Scope string_scope.

(** The nested loops over categories and patterns are one loop over the
    rules, whose results are put one after the other. *)
Lemma flat_map_by_rule {K P B} (g : K -> P -> list B) (table : list (K * list P)) :
  flat_map (fun entry => flat_map (g (fst entry)) (snd entry)) table
  = concat (map (fun rule => g (fst rule) (snd rule))
                (flat_map (fun entry => map (pair (fst entry)) (snd entry)) table)).
Proof.
  induction table as [|[k ps] table IH]; simpl; [reflexivity|].
  rewrite IH, map_app, concat_app. f_equal.
  rewrite map_map. simpl. apply flat_map_concat_map.
Qed.

Lemma Forall2_map_r {A B} (R : A -> B -> Prop) (f : A -> B) (l : list A) :
  (forall x, R x (f x)) -> Forall2 R l (map f l).
Proof. intros H. induction l; simpl; constructor; auto. Qed.

(** One pattern of the line-by-line scan: lines in increasing order. *)
Lemma scan_pattern_lines (file_path vuln_type : string) (entry : Re.pattern * string)
    (lines : list string) (first : nat) :
  let found :=
    flat_map
      (fun numbered : nat * string =>
         let (line_num, line) := numbered in
         if Re.search (fst entry) line then
           [ {| v_type := vuln_type; v_description := snd entry;
                v_line := Z.of_nat line_num; v_code := Text.strip line;
                v_severity := get_severity vuln_type; v_file := file_path;
                v_source := None |} ]
         else [])
      (combine (List.seq first (List.length lines)) lines) in
  StronglySorted Z.lt (map v_line found)
  /\ List.Forall (fun v => (Z.of_nat first <= v_line v)%Z
                           /\ v_type v = vuln_type /\ v_description v = snd entry) found.
Proof.
  revert first. induction lines as [|l lines IH]; intros first; simpl.
  - split; constructor.
  - destruct (IH (S first)) as [Hsorted Hall].
    assert (Hall' : List.Forall
              (fun v => (Z.of_nat first <= v_line v)%Z
                        /\ v_type v = vuln_type /\ v_description v = snd entry)
              (flat_map
                 (fun numbered : nat * string =>
                    let (line_num, line) := numbered in
                    if Re.search (fst entry) line then
                      [ {| v_type := vuln_type; v_description := snd entry;
                           v_line := Z.of_nat line_num; v_code := Text.strip line;
                           v_severity := get_severity vuln_type; v_file := file_path;
                           v_source := None |} ]
                    else [])
                 (combine (List.seq (S first) (List.length lines)) lines))).
    { eapply List.Forall_impl; [|exact Hall]. simpl. intros v (? & ? & ?).
      repeat split; try assumption. lia. }
    destruct (Re.search (fst entry) l); simpl; [|now split].
    split.
    + constructor; [assumption|].
      apply List.Forall_forall. intros z Hz. apply in_map_iff in Hz as [v [<- Hv]].
      rewrite List.Forall_forall in Hall. apply Hall in Hv. simpl. lia.
    + constructor; [|assumption]. simpl. repeat split. lia.
Qed.

Lemma count_newlines_take_mono (i j : nat) (s : string) :
  i <= j -> Text.count_newlines (Text.take i s) <= Text.count_newlines (Text.take j s).
Proof.
  revert i j. induction s as [|c s IH]; intros [|i] [|j] H; simpl; try lia.
  specialize (IH i j). lia.
Qed.

(** One pattern of the predictor: lines in non-decreasing order. *)
Lemma predictions_of_pattern_lines (code vuln_type : string) (pat : Re.pattern) :
  StronglySorted le (map pr_line (predictions_of_pattern code vuln_type pat))
  /\ List.Forall (fun p => pr_type p = vuln_type) (predictions_of_pattern code vuln_type pat).
Proof.
  unfold predictions_of_pattern. split.
  - rewrite map_map.
    pose proof (scan_starts_increase pat code None 0 0) as Hs.
    fold (Re.finditer pat code) in Hs.
    induction (Re.finditer pat code) as [|m ms IH]; simpl; [constructor|].
    simpl in Hs. inversion Hs as [|? ? Hs' Hm]; subst.
    constructor; [now apply IH|].
    apply List.Forall_forall. intros n Hn. apply in_map_iff in Hn as [m' [<- Hm']].
    rewrite List.Forall_forall in Hm. specialize (Hm (fst m') (in_map fst _ _ Hm')).
    pose proof (count_newlines_take_mono (fst m) (fst m') code). lia.
  - apply List.Forall_forall. intros p Hp. apply in_map_iff in Hp as [m [<- _]].
    reflexivity.
Qed.

(** Against C4 as stated: the findings are not in line order when an
    earlier rule matches a later line; here the first rule of the table
    matches line 2 and a rule further down matches line 1, for both
    scanners. *)
Lemma findings_out_of_line_order :
  let content := "hashlib.md5(" ++ String Text.newline "SELECT a + b" in
  let code := "threading.Lock" ++ String Text.newline "strcpy(" in
  map v_line (detect_vulnerabilities "app.py" (Some content)) = [2; 1]%Z
  /\ ~ Sorted Z.le (map v_line (detect_vulnerabilities "app.py" (Some content)))
  /\ map pr_line (predict_vulnerabilities code "c") = [2; 1]
  /\ ~ Sorted le (map pr_line (predict_vulnerabilities code "c")).
Proof.
  intros content code.
  assert (H1 : map v_line (detect_vulnerabilities "app.py" (Some content)) = [2; 1]%Z)
    by (vm_compute; reflexivity).
  assert (H2 : map pr_line (predict_vulnerabilities code "c") = [2; 1])
    by (vm_compute; reflexivity).
  rewrite H1, H2. repeat split.
  - intros H. inversion H as [|? ? _ Hhd]; subst. inversion Hhd; subst. lia.
  - intros H. inversion H as [|? ? _ Hhd]; subst. inversion Hhd; subst. lia.
Qed.

(** C4, amended.  A scan is a function of the text, so scanning twice gives
    the same sequence.  The sequence is ordered by rule, in the order of
    the rule table, and by ascending line number within the findings of
    one rule only: strictly ascending for the line-by-line scan, which
    reports a line once per rule, and non-decreasing for the predictor,
    which reports every match. *)
Theorem findings_ordered_by_rule (file_path language content : string) :
  (exists segments : list (list vulnerability),
      detect_vulnerabilities file_path (Some content) = concat segments
      /\ Forall2
           (fun rule segment =>
              List.Forall (fun v => v_type v = fst rule /\ v_description v = snd (snd rule))
                          segment
              /\ StronglySorted Z.lt (map v_line segment))
           Spec.builtin_rules segments)
  /\ (exists segments : list (list prediction),
         predict_vulnerabilities content language = concat segments
         /\ Forall2
              (fun rule segment =>
                 List.Forall (fun p => pr_type p = fst rule) segment
                 /\ StronglySorted le (map pr_line segment))
              Spec.predictor_rules segments).
Proof.
  split.
  - exists (map (fun rule => scan_pattern file_path (fst rule) (Text.split_lines content) (snd rule))
                Spec.builtin_rules).
    split.
    + unfold detect_vulnerabilities, scan_type, Spec.builtin_rules.
      apply (flat_map_by_rule
               (fun t => scan_pattern file_path t (Text.split_lines content))).
    + apply Forall2_map_r. intros [t pd]. cbn [fst snd].
      destruct (scan_pattern_lines file_path t pd (Text.split_lines content) 1)
        as [Hsorted Hall].
      split; [|exact Hsorted].
      eapply List.Forall_impl; [|exact Hall]. simpl. tauto.
  - exists (map (fun rule => predictions_of_pattern content (fst rule) (snd rule))
                Spec.predictor_rules).
    split.
    + unfold predict_vulnerabilities, predictions_of_type, Spec.predictor_rules.
      apply (flat_map_by_rule (predictions_of_pattern content)).
    + apply Forall2_map_r. intros [t pat]. cbn [fst snd].
      destruct (predictions_of_pattern_lines content t pat) as [Hsorted Hall].
      now split.
Qed.

End Order.

(** ** EnhancedSemgrepAnalyzer: failures and the temporary rules file *)

Section CustomRules.
Import EnhancedSemgrepAnalyzer Subprocess.
Local Open Scope string_scope.

(** Once the rules file is written, the call returns whatever the tool
    does, and returns the empty list unless the tool exits with 0 and
    prints a JSON object; the cleanup has run. *)
Lemma analyze_after_rules_written (w : world) (file_path : string) (fs : files) :
  Spec.rules_file_written w ->
  exists findings,
    analyze_with_custom_rules w file_path fs
    = (Returned findings,
       if unlink_ok w then ({[tmp_name w]} ∪ fs) ∖ {[tmp_name w]}
       else {[tmp_name w]} ∪ fs)
    /\ (findings = [] \/
        exists results, run w = Completed 0 (JsonObject (Some results))
                        /\ findings = results).
Proof.
  intros (Hcreate & Himport & Hdump & Hclose).
  unfold analyze_with_custom_rules, create_custom_rules_file, bind,
    named_temporary_file, import_yaml, yaml_dump, close, try_finally,
    try_except, subprocess_run, os_unlink, ret, raise.
  rewrite Hcreate, Himport, Hdump, Hclose.
  destruct (run w) as [| | |rc out]; simpl.
  1-3: destruct (unlink_ok w); eexists; split; [reflexivity|now left| reflexivity|now left].
  destruct (rc =? 0)%Z eqn:Hrc.
  - apply Z.eqb_eq in Hrc as ->.
    destruct out as [| |[results|]]; simpl;
      destruct (unlink_ok w); eexists; (split; [reflexivity|]);
      try (now left); right; now exists results.
  - destruct (unlink_ok w); eexists; (split; [reflexivity|]); now left.
Qed.

(** The file is gone after such a call when it can be removed. *)
Lemma rules_file_removed (w : world) (file_path : string) (fs : files) :
  Spec.rules_file_written w -> unlink_ok w = true ->
  tmp_name w ∉ snd (analyze_with_custom_rules w file_path fs).
Proof.
  intros Hw Hunlink.
  destruct (analyze_after_rules_written w file_path fs Hw) as (findings & -> & _).
  rewrite Hunlink. cbn [snd].
  rewrite elem_of_difference, elem_of_singleton. tauto.
Qed.

(** When the rules file cannot be written, the exception of
    [create_custom_rules_file] reaches the caller: no handler is around
    that call. *)
Lemma analyze_raises_unless_rules_written (w : world) (file_path : string) (fs : files) :
  ~ Spec.rules_file_written w ->
  exists e, fst (analyze_with_custom_rules w file_path fs) = Raised e.
Proof.
  unfold Spec.rules_file_written, analyze_with_custom_rules,
    create_custom_rules_file, bind, named_temporary_file, import_yaml,
    yaml_dump, close, ret, raise.
  intros Hnot.
  destruct (tmp_create_ok w); [|now eexists].
  destruct (yaml_import_ok w); [|now eexists].
  destruct (yaml_dump_ok w); [|now eexists].
  destruct (close_ok w); [|now eexists].
  exfalso. apply Hnot. repeat split.
Qed.

(** C3 fails on the code.  [create_custom_rules_file] is called before the
    [try] statement, and imports yaml after it has created the temporary
    file: without the yaml module the call raises ImportError to its
    caller and leaves the temporary file behind. *)
Theorem analyze_raises_without_yaml (file_path : string) :
  analyze_with_custom_rules Spec.world_without_yaml file_path ∅
  = (Raised ImportError, {[tmp_name Spec.world_without_yaml]}).
Proof.
  unfold analyze_with_custom_rules, create_custom_rules_file, bind,
    named_temporary_file, import_yaml, raise. simpl.
  f_equal; set_solver.
Qed.

End CustomRules.

(** * Further properties *)

(** ** Re: what a match consumes *)

Section MatchFacts.
Import Re.
Local Open Scope string_scope.
Local Arguments String.append !s1 s2 : simpl nomatch.

Lemma append_assoc (a b c : string) : (a ++ b) ++ c = a ++ (b ++ c).
Proof. induction a as [|x a IH]; simpl; [reflexivity|now rewrite IH]. Qed.

Lemma length_append (a b : string) :
  String.length (a ++ b) = String.length a + String.length b.
Proof. induction a as [|x a IH]; simpl; [reflexivity|now rewrite IH]. Qed.

Lemma take_append (a b : string) : Text.take (String.length a) (a ++ b) = a.
Proof. induction a as [|x a IH]; simpl; [now destruct b|now rewrite IH]. Qed.

(** A successful match splits the text: the matched piece, at least
    [min_len] characters long, and the rest the continuation accepted. *)
Lemma rmatch_splits (ic : bool) (r : regex) :
  forall prev s k rest,
    rmatch ic r prev s k = Some rest ->
    exists p' mid s',
      s = mid ++ s' /\ k p' s' = Some rest /\ min_len r <= String.length mid.
Proof.
  induction r as [|cs|r1 IH1 r2 IH2|r1 IH1 r2 IH2|r1 IH1|]; intros prev s k rest; cbn [rmatch min_len].
  - intros H. exists prev, "", s. repeat split; [assumption|simpl; lia].
  - destruct s as [|c s]; [discriminate|].
    destruct (cset_mem ic cs c); [|discriminate].
    intros H. exists (Some c), (String c ""), s. repeat split; [assumption|simpl; lia].
  - intros H. apply IH1 in H as (p1 & mid1 & s1 & -> & H & Hlen1).
    apply IH2 in H as (p2 & mid2 & s2 & -> & H & Hlen2).
    exists p2, (mid1 ++ mid2), s2. rewrite append_assoc, length_append.
    repeat split; [assumption|lia].
  - destruct (rmatch ic r1 prev s k) as [x|] eqn:E.
    + intros H. injection H as ->.
      apply IH1 in E as (p' & mid & s' & -> & H & Hlen).
      exists p', mid, s'. repeat split; [assumption|lia].
    + intros H. apply IH2 in H as (p' & mid & s' & -> & H & Hlen).
      exists p', mid, s'. repeat split; [assumption|lia].
  - generalize (String.length s). intros n. revert prev s.
    induction n as [|n IHn]; intros prev s.
    + intros H. exists prev, "", s. repeat split; [assumption|simpl; lia].
    + match goal with
      | |- context [rmatch ic r1 prev s ?K] => destruct (rmatch ic r1 prev s K) as [x|] eqn:E
      end.
      * intros H. injection H as ->.
        apply IH1 in E as (p1 & mid1 & s1 & -> & H & _).
        destruct (_ <? _)%nat; [|discriminate].
        apply IHn in H as (p2 & mid2 & s2 & -> & H & _).
        exists p2, (mid1 ++ mid2), s2. rewrite append_assoc.
        repeat split; [assumption|lia].
      * intros H. exists prev, "", s. repeat split; [assumption|simpl; lia].
  - destruct (boundary prev s); [|discriminate].
    intros H. exists prev, "", s. repeat split; [assumption|simpl; lia].
Qed.

Lemma match_at_splits (p : pattern) (prev : option ascii) (s : string) (n : nat) :
  match_at p prev s = Some n ->
  exists mid rest,
    s = mid ++ rest /\ n = String.length mid /\ min_len (expr p) <= n.
Proof.
  unfold match_at.
  destruct (rmatch _ _ _ _ _) as [rest|] eqn:E; [|discriminate].
  intros H. injection H as <-.
  apply rmatch_splits in E as (_ & mid & s' & -> & H & Hlen).
  injection H as ->. exists mid, rest.
  rewrite length_append. repeat split; lia.
Qed.

(** Every match a scan reports is a piece of the text, found at the
    reported offset. *)
Lemma scan_located (p : pattern) (s : string) :
  forall prev pos skip m,
    In m (scan p prev s pos skip) ->
    exists pre post,
      s = pre ++ snd m ++ post
      /\ fst m = pos + String.length pre
      /\ min_len (expr p) <= String.length (snd m).
Proof.
  induction s as [|c s IH]; intros prev pos skip m; cbn [scan].
  - destruct skip; [|intros []].
    destruct (match_at p prev "") as [n|] eqn:E; [|intros []].
    intros [<-|[]]. apply match_at_splits in E as (mid & rest & Hs & -> & Hlen).
    destruct mid; [|discriminate]. exists "", "". simpl in *. repeat split; lia.
  - assert (Htail : forall prev' skip',
               In m (scan p prev' s (S pos) skip') ->
               exists pre post,
                 String c s = pre ++ snd m ++ post
                 /\ fst m = pos + String.length pre
                 /\ min_len (expr p) <= String.length (snd m)).
    { intros prev' skip' H. apply IH in H as (pre & post & -> & Hpos & Hlen).
      exists (String c pre), post. simpl. repeat split; [lia|assumption]. }
    destruct skip as [|skip]; [|apply Htail].
    destruct (match_at p prev (String c s)) as [n|] eqn:E; [|apply Htail].
    intros [<-|H]; [|now apply Htail in H].
    apply match_at_splits in E as (mid & rest & Hs & -> & Hlen).
    exists "", rest. cbn [fst snd]. rewrite Hs, take_append. simpl.
    repeat split; [lia|assumption].
Qed.

End MatchFacts.

(** ** AIBugPredictor: what every prediction carries *)

Section PredictorFacts.
Import AIBugPredictor.
Local Open Scope string_scope.
Local Arguments String.append !s1 s2 : simpl nomatch.

(** The value looked up in a table of five entries, or the default. *)
Lemma severity_weight_cases (vuln_type : string) :
  In (default 0.5%Q (severity_weights !! vuln_type))
     [0.9; 0.8; 0.85; 0.95; 0.7; 0.5]%Q.
Proof.
  destruct (decide (vuln_type = "sql_injection")) as [->|];
    [vm_compute; intuition reflexivity|].
  destruct (decide (vuln_type = "xss")) as [->|];
    [vm_compute; intuition reflexivity|].
  destruct (decide (vuln_type = "hardcoded_secrets")) as [->|];
    [vm_compute; intuition reflexivity|].
  destruct (decide (vuln_type = "buffer_overflow")) as [->|];
    [vm_compute; intuition reflexivity|].
  destruct (decide (vuln_type = "race_condition")) as [->|];
    [vm_compute; intuition reflexivity|].
  unfold severity_weights. simpl list_to_map.
  rewrite !lookup_insert_ne by congruence. rewrite lookup_empty.
  simpl. intuition reflexivity.
Qed.

Lemma confidence_cases (vuln_type match_ : string) :
  In (calculate_confidence vuln_type match_) [0.8; 0.75; 0.9; 0.85; 0.6; 0.5]%Q.
Proof.
  unfold calculate_confidence.
  destruct (decide (vuln_type = "sql_injection")) as [->|];
    [vm_compute; intuition reflexivity|].
  destruct (decide (vuln_type = "xss")) as [->|];
    [vm_compute; intuition reflexivity|].
  destruct (decide (vuln_type = "hardcoded_secrets")) as [->|];
    [vm_compute; intuition reflexivity|].
  destruct (decide (vuln_type = "buffer_overflow")) as [->|];
    [vm_compute; intuition reflexivity|].
  destruct (decide (vuln_type = "race_condition")) as [->|];
    [vm_compute; intuition reflexivity|].
  unfold confidence_map. simpl list_to_map.
  rewrite !lookup_insert_ne by congruence. rewrite lookup_empty.
  simpl. intuition reflexivity.
Qed.

(** The context of a match only raises the severity. *)
Lemma severity_between (vuln_type match_ : string) :
  let base := default 0.5%Q (severity_weights !! vuln_type) in
  (Qmin base 1.0 <= calculate_severity vuln_type match_
   /\ calculate_severity vuln_type match_ <= 1)%Q.
Proof.
  intros base. unfold calculate_severity. fold base.
  split; [|eapply Qle_trans; [apply Q.le_min_r|discriminate]].
  apply Q.min_le_compat_r.
  assert (H1 : (base <= base + 0.1)%Q)
    by (rewrite <- (Qplus_0_r base) at 1; apply Qplus_le_compat; [apply Qle_refl|discriminate]).
  destruct (_ || _)%bool, (_ || _)%bool; try apply Qle_refl; try assumption.
  - eapply Qle_trans; [exact H1|].
    rewrite <- (Qplus_0_r (base + 0.1)) at 1.
    apply Qplus_le_compat; [apply Qle_refl|discriminate].
  - rewrite <- (Qplus_0_r base) at 1.
    apply Qplus_le_compat; [apply Qle_refl|discriminate].
Qed.

(** X1.  Whatever the category and the matched text, the severity score is
    between 0.5 and 1 and the confidence score between 0.5 and 0.9. *)
Theorem scores_in_range (vuln_type match_ : string) :
  (0.5 <= calculate_severity vuln_type match_ <= 1
   /\ 0.5 <= calculate_confidence vuln_type match_ <= 0.9)%Q.
Proof.
  destruct (severity_between vuln_type match_) as [Hlow Hhigh].
  split; [split; [|exact Hhigh]|].
  - eapply Qle_trans; [|exact Hlow].
    apply Q.min_glb; [|discriminate].
    pose proof (severity_weight_cases vuln_type) as H. simpl in H.
    repeat destruct H as [<-|H]; try discriminate. destruct H.
  - pose proof (confidence_cases vuln_type match_) as H. simpl in H.
    repeat destruct H as [<-|H]; try (split; discriminate). destruct H.
Qed.

Lemma predictor_rule_types (rule : string * Re.pattern) :
  In rule Spec.predictor_rules ->
  In (fst rule)
     ["sql_injection"; "xss"; "hardcoded_secrets"; "buffer_overflow"; "race_condition"].
Proof.
  intros H. apply (in_map fst) in H.
  revert H. generalize (fst rule). intros t.
  let names := eval vm_compute in (map fst Spec.predictor_rules) in
  change (map fst Spec.predictor_rules) with names.
  simpl. intuition.
Qed.

Lemma predictor_rule_min_len (rule : string * Re.pattern) :
  In rule Spec.predictor_rules -> 7 <= Re.min_len (Re.expr (snd rule)).
Proof.
  assert (H : forallb (fun rule => (7 <=? Re.min_len (Re.expr (snd rule)))%nat)
                      Spec.predictor_rules = true) by (vm_compute; reflexivity).
  rewrite forallb_forall in H. intros Hin. apply H in Hin. now apply Nat.leb_le.
Qed.

(** Where a prediction comes from: a rule and a match of its pattern, a
    piece of the code that starts at the reported offset. *)
Lemma prediction_origin (code language : string) (p : prediction) :
  In p (predict_vulnerabilities code language) ->
  exists rule pre post,
    In rule Spec.predictor_rules
    /\ code = pre ++ pr_match p ++ post
    /\ p = prediction_of code (fst rule) (String.length pre, pr_match p)
    /\ Re.min_len (Re.expr (snd rule)) <= String.length (pr_match p).
Proof.
  intros H. apply in_predict_vulnerabilities in H as (t & pat & m & Hrule & Hm & ->).
  apply scan_located in Hm as (pre & post & Hcode & Hpos & Hlen).
  exists (t, pat), pre, post. cbn [fst snd pr_match prediction_of].
  repeat split; try assumption.
  destruct m as [i txt]. simpl in *. now subst i.
Qed.

(** X2.  Every prediction of [predict_vulnerabilities] has one of the five
    categories of the pattern table, a severity score between 0.7 and 1 and
    a confidence score between 0.6 and 0.9. *)
Theorem prediction_scores (code language : string) (p : prediction) :
  In p (predict_vulnerabilities code language) ->
  In (pr_type p)
     ["sql_injection"; "xss"; "hardcoded_secrets"; "buffer_overflow"; "race_condition"]
  /\ (0.7 <= pr_severity p <= 1)%Q
  /\ (0.6 <= pr_confidence p <= 0.9)%Q.
Proof.
  intros H. apply prediction_origin in H as (rule & pre & post & Hrule & _ & -> & _).
  apply predictor_rule_types in Hrule.
  cbn [pr_type pr_severity pr_confidence prediction_of snd].
  split; [assumption|].
  destruct (severity_between (fst rule) (pr_match p)) as [Hlow Hhigh].
  generalize dependent (fst rule). intros t Ht Hlow Hhigh.
  simpl in Ht.
  destruct Ht as [<-|[<-|[<-|[<-|[<-|[]]]]]];
    (split; [split; [eapply Qle_trans; [|exact Hlow]; vm_compute; discriminate
                    |exact Hhigh]
            |split; vm_compute; discriminate]).
Qed.

Lemma prediction_scores_witness :
  let code := String "x" (String Text.newline Spec.password_line) in
  let p := prediction_of code "hardcoded_secrets" (2, Spec.password_line) in
  In p (predict_vulnerabilities code "python")
  /\ (0.7 <= pr_severity p <= 1)%Q
  /\ (0.6 <= pr_confidence p <= 0.9)%Q.
Proof.
  intros code p.
  assert (Hin : In p (predict_vulnerabilities code "python"))
    by (vm_compute; left; reflexivity).
  split; [exact Hin|].
  exact (proj2 (prediction_scores code "python" p Hin)).
Defined.

(** X3.  Every category of the pattern table has its own severity weight,
    confidence and suggestion: no prediction gets a default weight or the
    generic suggestion. *)
Theorem prediction_tables_consistent (code language : string) (p : prediction) :
  In p (predict_vulnerabilities code language) ->
  is_Some (severity_weights !! pr_type p)
  /\ is_Some (confidence_map !! pr_type p)
  /\ suggestions !! pr_type p = Some (pr_suggestion p)
  /\ pr_suggestion p <> "Review code for potential security issues".
Proof.
  intros H. apply prediction_origin in H as (rule & pre & post & Hrule & _ & -> & _).
  apply predictor_rule_types in Hrule.
  cbn [pr_type pr_suggestion prediction_of].
  generalize dependent (fst rule). intros t Ht. simpl in Ht.
  destruct Ht as [<-|[<-|[<-|[<-|[<-|[]]]]]];
    (split; [eexists; vm_compute; reflexivity|];
     split; [eexists; vm_compute; reflexivity|];
     split; [vm_compute; reflexivity|vm_compute; discriminate]).
Qed.

Lemma prediction_tables_consistent_witness :
  let code := String "x" (String Text.newline Spec.password_line) in
  let p := prediction_of code "hardcoded_secrets" (2, Spec.password_line) in
  In p (predict_vulnerabilities code "python")
  /\ suggestions !! pr_type p = Some (pr_suggestion p).
Proof.
  intros code p.
  assert (Hin : In p (predict_vulnerabilities code "python"))
    by (vm_compute; left; reflexivity).
  split; [exact Hin|].
  exact (proj1 (proj2 (proj2 (prediction_tables_consistent code "python" p Hin)))).
Defined.

(** X4.  The matched text of a prediction is a piece of the code, and the
    line of the prediction is one plus the number of line breaks before
    that piece. *)
Theorem prediction_match_located (code language : string) (p : prediction) :
  In p (predict_vulnerabilities code language) ->
  exists pre post,
    code = pre ++ pr_match p ++ post
    /\ pr_line p = Text.count_newlines pre + 1.
Proof.
  intros H. apply prediction_origin in H as (rule & pre & post & _ & Hcode & Hp & _).
  exists pre, post. split; [assumption|].
  rewrite Hp. cbn [pr_line prediction_of fst].
  rewrite Hcode at 1. now rewrite take_append.
Qed.

Lemma prediction_match_located_witness :
  let code := String "x" (String Text.newline Spec.password_line) in
  let p := prediction_of code "hardcoded_secrets" (2, Spec.password_line) in
  In p (predict_vulnerabilities code "python")
  /\ exists pre post,
       code = pre ++ pr_match p ++ post /\ pr_line p = Text.count_newlines pre + 1.
Proof.
  intros code p.
  assert (Hin : In p (predict_vulnerabilities code "python"))
    by (vm_compute; left; reflexivity).
  split; [exact Hin|].
  exact (prediction_match_located code "python" p Hin).
Defined.

(** X5.  No prediction has an empty match: the matched text has at least
    seven characters, the length of the shortest text a pattern of the
    table can match. *)
Theorem prediction_match_length (code language : string) (p : prediction) :
  In p (predict_vulnerabilities code language) ->
  7 <= String.length (pr_match p) <= String.length code.
Proof.
  intros H. apply prediction_origin in H as (rule & pre & post & Hrule & Hcode & _ & Hlen).
  apply predictor_rule_min_len in Hrule.
  split; [lia|].
  rewrite Hcode, !length_append. lia.
Qed.

Lemma prediction_match_length_witness :
  let code := String "x" (String Text.newline Spec.password_line) in
  let p := prediction_of code "hardcoded_secrets" (2, Spec.password_line) in
  In p (predict_vulnerabilities code "python")
  /\ 7 <= String.length (pr_match p) <= String.length code.
Proof.
  intros code p.
  assert (Hin : In p (predict_vulnerabilities code "python"))
    by (vm_compute; left; reflexivity).
  split; [exact Hin|].
  exact (prediction_match_length code "python" p Hin).
Defined.

End PredictorFacts.

(** ** AIBugPredictor: how the risk score moves *)

Section RiskFacts.
Import AIBugPredictor.
Local Open Scope Q_scope.

Lemma prediction_valid (code language : string) (p : prediction) :
  In p (predict_vulnerabilities code language) -> Spec.valid_prediction p.
Proof.
  intros H. apply in_predict_vulnerabilities in H as (t & pat & m & _ & _ & ->).
  unfold Spec.valid_prediction, Spec.score. cbn [pr_severity pr_confidence prediction_of].
  destruct (severity_between t (snd m)) as [Hlow Hhigh].
  pose proof (severity_weight_cases t) as Hs. simpl in Hs.
  pose proof (confidence_cases t (snd m)) as Hc. simpl in Hc.
  split; [split; [|exact Hhigh]|].
  - eapply Qle_trans; [|exact Hlow]. apply Q.min_glb; [|discriminate].
    repeat destruct Hs as [<-|Hs]; try discriminate. destruct Hs.
  - repeat destruct Hc as [<-|Hc]; try (split; discriminate). destruct Hc.
Qed.

Lemma risk_score_unit (results : list Semgrep.result) (predictions : list prediction) :
  Forall Spec.valid_prediction predictions ->
  0 <= generate_risk_score results predictions <= 1.
Proof.
  intros Hvalid. rewrite generate_risk_score_min. split; [|apply Q.le_min_r].
  apply Q.min_glb; [|discriminate].
  apply Qle_shift_div_l; [reflexivity|]. rewrite Qmult_0_l.
  apply Qplus_nonneg;
    [apply external_component_nonneg|now apply heuristic_component_nonneg].
Qed.

(** X6.  The risk score of the predictions of a scan is in [0,1], whatever
    the code scanned and whatever the external tool reported. *)
Theorem risk_score_of_scan_in_unit (results : list Semgrep.result) (code language : string) :
  0 <= generate_risk_score results (predict_vulnerabilities code language) <= 1.
Proof.
  apply risk_score_unit, List.Forall_forall.
  intros p Hp. now apply prediction_valid in Hp.
Qed.

Lemma reported_cons (level : string) (r : Semgrep.result) (results : list Semgrep.result) :
  (Spec.reported level results <= Spec.reported level (r :: results))%Z.
Proof. simpl. destruct (decide _); lia. Qed.

Lemma risk_total_le (e1 h1 e2 h2 : Q) :
  e1 <= e2 -> h1 <= h2 -> Qmin ((e1 + h1) / 10) 1 <= Qmin ((e2 + h2) / 10) 1.
Proof.
  intros He Hh. apply Q.min_le_compat_r.
  apply Qmult_le_compat_r; [now apply Qplus_le_compat|discriminate].
Qed.

(** X7.  One more finding of the external tool never lowers the risk
    score. *)
Theorem risk_score_monotone_external (r : Semgrep.result)
    (results : list Semgrep.result) (predictions : list prediction) :
  generate_risk_score results predictions
  <= generate_risk_score (r :: results) predictions.
Proof.
  rewrite !generate_risk_score_min.
  apply risk_total_le; [|apply Qle_refl].
  unfold Spec.external_component.
  assert (H : forall level,
             inject_Z (Spec.reported level results)
             <= inject_Z (Spec.reported level (r :: results)))
    by (intros level; rewrite <- Zle_Qle; apply reported_cons).
  repeat apply Qplus_le_compat; apply Qmult_le_l; try reflexivity; apply H.
Qed.

(** X8.  One more heuristic finding with scores in [0,1] never lowers the
    risk score. *)
Theorem risk_score_monotone_heuristic (p : prediction)
    (results : list Semgrep.result) (predictions : list prediction) :
  Spec.valid_prediction p ->
  generate_risk_score results predictions
  <= generate_risk_score results (p :: predictions).
Proof.
  intros [[Hs _] [Hc _]].
  rewrite !generate_risk_score_min.
  apply risk_total_le; [apply Qle_refl|].
  simpl. rewrite <- (Qplus_0_l (Spec.heuristic_component predictions)) at 1.
  apply Qplus_le_compat; [now apply Qmult_le_0_compat|apply Qle_refl].
Qed.

Lemma risk_score_monotone_heuristic_witness :
  let p := prediction_of Spec.password_line "hardcoded_secrets" (0%nat, Spec.password_line) in
  Spec.valid_prediction p
  /\ generate_risk_score [] [] <= generate_risk_score [] [p].
Proof.
  intros p.
  assert (Hvalid : Spec.valid_prediction p)
    by (repeat split; vm_compute; discriminate).
  split; [exact Hvalid|].
  exact (risk_score_monotone_heuristic p [] [] Hvalid).
Defined.

(** X9.  Only the severities ERROR, WARNING and INFO, spelled so, count: a
    finding of the external tool with any other severity, or with none,
    leaves the risk score as it is. *)
Theorem risk_score_ignores_other_severities (r : Semgrep.result)
    (results : list Semgrep.result) (predictions : list prediction) :
  Semgrep.get_extra_severity r <> Some "ERROR"%string ->
  Semgrep.get_extra_severity r <> Some "WARNING"%string ->
  Semgrep.get_extra_severity r <> Some "INFO"%string ->
  generate_risk_score (r :: results) predictions
  == generate_risk_score results predictions.
Proof.
  intros HE HW HI.
  rewrite !generate_risk_score_min.
  unfold Spec.external_component. simpl.
  rewrite !decide_False by assumption.
  reflexivity.
Qed.

(** The severity error, in lower case, does not count. *)
Lemma risk_score_ignores_other_severities_witness :
  generate_risk_score [Spec.reported_error] [] == generate_risk_score [] [].
Proof.
  apply (risk_score_ignores_other_severities Spec.reported_error [] []);
    discriminate.
Defined.

End RiskFacts.

(** ** AIBugPredictor: more on the complexity metrics *)

Section ComplexityFacts.
Import AIBugPredictor.

Lemma three_way_filter_length {A} (f g h : A -> bool) (l : list A) :
  (forall x, (f x, g x, h x) = (true, false, false)
             \/ (f x, g x, h x) = (false, true, false)
             \/ (f x, g x, h x) = (false, false, true)) ->
  List.length (List.filter f l) + List.length (List.filter g l)
  + List.length (List.filter h l) = List.length l.
Proof.
  intros Hx. induction l as [|x l IH]; simpl; [reflexivity|].
  destruct (Hx x) as [H|[H|H]]; injection H as -> -> ->; simpl; lia.
Qed.

(** X10.  Every line is counted exactly once: as a code line, as a comment
    line, or as neither when it is blank after trimming. *)
Theorem lines_partition (code : string) :
  let m := analyze_code_complexity code in
  let blank := fun line => negb (Text.nonempty (Text.strip line)) in
  code_lines m + comment_lines m
  + List.length (List.filter blank (Text.split_lines code)) = total_lines m.
Proof.
  simpl. apply three_way_filter_length. intros line.
  unfold is_code_line, is_comment_line.
  destruct (Text.strip line) as [|c s]; cbn [Text.nonempty Text.startswith];
    [simpl; auto|].
  destruct (Ascii.eqb _ c); simpl; auto.
Qed.

Lemma fold_left_add_ge {A} (f : A -> nat) (l : list A) (a : nat) :
  a <= fold_left (fun acc x => acc + f x) l a.
Proof.
  revert a. induction l as [|x l IH]; intros a; simpl; [lia|].
  specialize (IH (a + f x)). lia.
Qed.

(** X11.  The complexity metrics never degenerate below their base: there
    is at least one line and the cyclomatic complexity is at least 1. *)
Theorem metrics_at_least_one (code : string) :
  1 <= total_lines (analyze_code_complexity code)
  /\ 1 <= cyclomatic_complexity (analyze_code_complexity code).
Proof.
  split; simpl.
  - rewrite split_lines_length. lia.
  - apply fold_left_add_ge.
Qed.

(** The lines the nesting depth looks at, and the depth of one line. *)
Lemma fold_left_max {A} (c : A -> bool) (f : A -> nat) (l : list A) (a : nat) :
  let r := fold_left (fun m x => if c x then Nat.max m (f x) else m) l a in
  a <= r
  /\ (forall x, In x l -> c x = true -> f x <= r)
  /\ (r = a \/ exists x, In x l /\ c x = true /\ f x = r).
Proof.
  revert a. induction l as [|x l IH]; intros a; simpl.
  - split; [lia|]. split; [intros x []|now left].
  - destruct (c x) eqn:Hcx.
    + destruct (IH (Nat.max a (f x))) as (Hge & Hall & Hex).
      split; [lia|]. split.
      * intros y [<-|Hy] Hc; [lia|now apply Hall].
      * destruct Hex as [Heq|(y & Hy & Hc & Hf)]; [|right; exists y; split; [now right|now split]].
        destruct (Nat.max_spec a (f x)) as [[_ Hm]|[_ Hm]].
        -- right. exists x. split; [now left|]. split; [assumption|].
           rewrite Heq. now symmetry.
        -- left. now rewrite Heq.
    + destruct (IH a) as (Hge & Hall & Hex).
      split; [lia|]. split.
      * intros y [<-|Hy] Hc; [congruence|now apply Hall].
      * destruct Hex as [Heq|(y & Hy & Hc & Hf)]; [now left|right; exists y; split; [now right|now split]].
Qed.

(** X12.  The nesting depth is the largest indentation, in units of four
    characters, of a line that is neither blank nor a comment: no such line
    is indented deeper, and when the depth is not 0 some such line is
    indented exactly that deep. *)
Theorem nesting_depth_is_maximum (code : string) :
  let counted := fun line =>
    Text.nonempty (Text.lstrip line) && negb (Text.startswith "#" (Text.lstrip line)) in
  let depth := fun line =>
    (String.length line - String.length (Text.lstrip line)) / 4 in
  (forall line, In line (Text.split_lines code) -> counted line = true ->
                depth line <= calculate_max_nesting_depth code)
  /\ (calculate_max_nesting_depth code = 0
      \/ exists line, In line (Text.split_lines code) /\ counted line = true
                      /\ depth line = calculate_max_nesting_depth code).
Proof.
  intros counted depth.
  destruct (fold_left_max counted depth (Text.split_lines code) 0) as (_ & Hall & Hex).
  split; [exact Hall|exact Hex].
Qed.

(** A function body indented by eight characters. *)
Lemma nesting_depth_is_maximum_witness :
  let code := ("def f():" ++ String Text.newline "        return 1")%string in
  In "        return 1"%string (Text.split_lines code)
  /\ 2 <= calculate_max_nesting_depth code.
Proof.
  intros code.
  assert (Hin : In "        return 1"%string (Text.split_lines code))
    by (vm_compute; right; left; reflexivity).
  split; [exact Hin|].
  exact (proj1 (nesting_depth_is_maximum code) _ Hin eq_refl).
Defined.

End ComplexityFacts.

(** ** ModernBugPredictionGUI: the severity summary *)

Section SummaryFacts.
Import ModernBugPredictionGUI.
Local Open Scope string_scope.

(** The number of entries with a given severity. *)
Lemma categorize_fold (vulnerabilities : list vulnerability) :
  forall (categories : gmap string nat) (severity : string),
    fold_left
      (fun categories vuln =>
         match categories !! v_severity vuln with
         | Some n => <[v_severity vuln := n + 1]> categories
         | None => categories
         end)
      vulnerabilities categories !! severity
    = match categories !! severity with
      | Some n =>
          Some (n + List.length
                      (List.filter (fun v => String.eqb (v_severity v) severity)
                                   vulnerabilities))
      | None => None
      end.
Proof.
  induction vulnerabilities as [|v vs IH]; intros categories severity; simpl.
  - destruct (categories !! severity); [f_equal; lia|reflexivity].
  - rewrite IH. clear IH.
    destruct (String.eqb_spec (v_severity v) severity) as [->|Hne].
    + destruct (categories !! severity) as [n|] eqn:E.
      * rewrite lookup_insert_eq. simpl. f_equal. lia.
      * now rewrite E.
    + destruct (categories !! v_severity v) as [n|] eqn:E; [|reflexivity].
      now rewrite lookup_insert_ne.
Qed.

(** X13.  The summary has exactly the five buckets as keys, and the count of
    a bucket is the number of entries whose severity is that bucket. *)
Theorem categorize_counts (vulnerabilities : list vulnerability) (severity : string) :
  (In severity ["CRITICAL"; "HIGH"; "MEDIUM"; "LOW"; "INFO"] ->
   categorize_vulnerabilities vulnerabilities !! severity
   = Some (List.length
             (List.filter (fun v => String.eqb (v_severity v) severity) vulnerabilities)))
  /\ (~ In severity ["CRITICAL"; "HIGH"; "MEDIUM"; "LOW"; "INFO"] ->
      categorize_vulnerabilities vulnerabilities !! severity = None).
Proof.
  unfold categorize_vulnerabilities. rewrite categorize_fold. split.
  - simpl. intros [<-|[<-|[<-|[<-|[<-|[]]]]]]; reflexivity.
  - simpl. intros Hnot. unfold empty_categories. simpl list_to_map.
    rewrite !lookup_insert_ne by (intros <-; apply Hnot; tauto).
    now rewrite lookup_empty.
Qed.

Lemma categorize_counts_witness :
  categorize_vulnerabilities
    (detect_vulnerabilities "app.py" (Some Spec.password_line)) !! "CRITICAL" = Some 1
  /\ categorize_vulnerabilities
       (detect_vulnerabilities "app.py" (Some Spec.password_line)) !! "ERROR" = None.
Proof.
  split.
  - rewrite (proj1 (categorize_counts _ "CRITICAL")) by (simpl; tauto).
    vm_compute. reflexivity.
  - apply (proj2 (categorize_counts _ "ERROR")). simpl.
    intros H. repeat destruct H as [H|H]; try discriminate H. exact H.
Defined.

(** The summary as a table of five counts. *)
Lemma categorize_table (vulnerabilities : list vulnerability) :
  let count := fun severity =>
    List.length (List.filter (fun v => String.eqb (v_severity v) severity) vulnerabilities) in
  categorize_vulnerabilities vulnerabilities
  = list_to_map [("CRITICAL", count "CRITICAL"); ("HIGH", count "HIGH");
                 ("MEDIUM", count "MEDIUM"); ("LOW", count "LOW");
                 ("INFO", count "INFO")].
Proof.
  intros count. apply map_eq. intros k.
  unfold categorize_vulnerabilities. rewrite categorize_fold.
  destruct (decide (k = "CRITICAL")) as [->|]; [reflexivity|].
  destruct (decide (k = "HIGH")) as [->|]; [reflexivity|].
  destruct (decide (k = "MEDIUM")) as [->|]; [reflexivity|].
  destruct (decide (k = "LOW")) as [->|]; [reflexivity|].
  destruct (decide (k = "INFO")) as [->|]; [reflexivity|].
  unfold empty_categories. simpl list_to_map.
  rewrite !lookup_insert_ne by congruence. now rewrite lookup_empty.
Qed.

Lemma sum_values_table (c h m l i : nat) :
  sum_values (list_to_map [("CRITICAL", c); ("HIGH", h); ("MEDIUM", m);
                           ("LOW", l); ("INFO", i)])
  = c + h + m + l + i.
Proof. unfold sum_values. vm_compute (map_to_list _). simpl. lia. Qed.

Lemma bucket_counts_total (vulnerabilities : list vulnerability) :
  let count := fun severity =>
    List.length (List.filter (fun v => String.eqb (v_severity v) severity) vulnerabilities) in
  count "CRITICAL" + count "HIGH" + count "MEDIUM" + count "LOW" + count "INFO"
  = List.length
      (List.filter
         (fun v => mem (v_severity v) ["CRITICAL"; "HIGH"; "MEDIUM"; "LOW"; "INFO"])
         vulnerabilities).
Proof.
  intros count. subst count. cbv beta.
  induction vulnerabilities as [|v vs IH]; [reflexivity|].
  cbn [List.filter mem existsb] in IH |- *.
  generalize (v_severity v). intros s.
  destruct (String.eqb_spec s "CRITICAL") as [->|]; [simpl in *; lia|].
  destruct (String.eqb_spec s "HIGH") as [->|]; [simpl in *; lia|].
  destruct (String.eqb_spec s "MEDIUM") as [->|]; [simpl in *; lia|].
  destruct (String.eqb_spec s "LOW") as [->|]; [simpl in *; lia|].
  destruct (String.eqb_spec s "INFO") as [->|]; [simpl in *; lia|].
  simpl in *. lia.
Qed.

Lemma sum_values_categorize (vulnerabilities : list vulnerability) :
  sum_values (categorize_vulnerabilities vulnerabilities)
  = List.length
      (List.filter
         (fun v => mem (v_severity v) ["CRITICAL"; "HIGH"; "MEDIUM"; "LOW"; "INFO"])
         vulnerabilities).
Proof.
  rewrite categorize_table, sum_values_table. apply bucket_counts_total.
Qed.

Lemma filter_length_le {A} (f : A -> bool) (l : list A) :
  List.length (List.filter f l) <= List.length l.
Proof. induction l as [|x l IH]; simpl; [lia|]. destruct (f x); simpl; lia. Qed.

(** X14.  The total of the summary, which is the total stored in the
    database, is the number of entries whose severity is one of the five
    buckets; entries with another severity are counted nowhere, so this
    total can stay below the number of entries. *)
Theorem summary_total (vulnerabilities : list vulnerability) :
  sum_values (categorize_vulnerabilities vulnerabilities)
  = List.length
      (List.filter
         (fun v => mem (v_severity v) ["CRITICAL"; "HIGH"; "MEDIUM"; "LOW"; "INFO"])
         vulnerabilities)
  /\ sum_values (categorize_vulnerabilities vulnerabilities)
     <= List.length vulnerabilities.
Proof.
  rewrite sum_values_categorize. split; [reflexivity|apply filter_length_le].
Qed.

End SummaryFacts.

(** ** ModernBugPredictionGUI: what the line-by-line scan reports *)

Section DetectFacts.
Import ModernBugPredictionGUI.
Local Open Scope string_scope.

Lemma in_enumerate (lines : list string) (first : nat) (numbered : nat * string) :
  In numbered (combine (List.seq first (List.length lines)) lines)
  <-> exists n, fst numbered = first + n /\ nth_error lines n = Some (snd numbered).
Proof.
  revert first. induction lines as [|l lines IH]; intros first; simpl.
  - split; [intros []|intros [[|n] [_ H]]; discriminate].
  - rewrite IH. split.
    + intros [<-|(n & Hn & Hl)].
      * exists 0. simpl. split; [lia|reflexivity].
      * exists (S n). simpl. split; [lia|assumption].
    + intros ([|n] & Hn & Hl); simpl in Hl.
      * left. destruct numbered as [i x]. simpl in *. injection Hl as ->.
        f_equal. lia.
      * right. exists n. split; [lia|assumption].
Qed.

(** Where an entry of the line-by-line scan comes from. *)
Lemma detect_vulnerabilities_iff_left (file_path content : string) (v : vulnerability) :
  In v (detect_vulnerabilities file_path (Some content)) ->
  exists rule n line,
    In rule Spec.builtin_rules
    /\ nth_error (Text.split_lines content) n = Some line
    /\ Re.search (fst (snd rule)) line = true
    /\ v = {| v_type := fst rule;
              v_description := snd (snd rule);
              v_line := Z.of_nat (S n);
              v_code := Text.strip line;
              v_severity := get_severity (fst rule);
              v_file := file_path;
              v_source := None |}.
Proof.
  unfold detect_vulnerabilities, Spec.builtin_rules.
  intros H. apply in_flat_map in H as [entry [Hentry H]].
  unfold scan_type in H. apply in_flat_map in H as [pd [Hpd H]].
  unfold scan_pattern in H. apply in_flat_map in H as [[i l] [Hil H]].
  apply in_enumerate in Hil as (n & Hi & Hl). simpl in Hi, Hl.
  destruct (Re.search (fst pd) l) eqn:Hsearch; [|destruct H].
  destruct H as [<-|[]].
  exists (fst entry, pd), n, l. cbn [fst snd]. repeat split; try assumption.
  - apply in_flat_map. exists entry. split; [assumption|now apply in_map].
  - now subst i.
Qed.

(** X15.  The line-by-line scan reports exactly the pairs of a rule and a
    line in which the pattern of the rule is found: each such pair gives one
    entry, with the category, description and severity level of the rule,
    the 1-based number of the line and its trimmed text, and there is no
    other entry. *)
Theorem detect_vulnerabilities_iff (file_path content : string) (v : vulnerability) :
  In v (detect_vulnerabilities file_path (Some content))
  <-> exists rule n line,
        In rule Spec.builtin_rules
        /\ nth_error (Text.split_lines content) n = Some line
        /\ Re.search (fst (snd rule)) line = true
        /\ v = {| v_type := fst rule;
                  v_description := snd (snd rule);
                  v_line := Z.of_nat (S n);
                  v_code := Text.strip line;
                  v_severity := get_severity (fst rule);
                  v_file := file_path;
                  v_source := None |}.
Proof.
  split; [apply detect_vulnerabilities_iff_left|].
  unfold detect_vulnerabilities, Spec.builtin_rules.
  - intros (rule & n & line & Hrule & Hline & Hsearch & ->).
    apply in_flat_map in Hrule as [entry [Hentry Hrule]].
    apply in_map_iff in Hrule as [pd [<- Hpd]]. cbn [fst snd] in *.
    apply in_flat_map. exists entry. split; [assumption|].
    unfold scan_type. apply in_flat_map. exists pd. split; [assumption|].
    unfold scan_pattern. apply in_flat_map. exists (S n, line). split.
    + apply in_enumerate. exists n. split; [reflexivity|assumption].
    + rewrite Hsearch. now left.
Qed.

(** X16.  Every entry of the line-by-line scan has the level CRITICAL, HIGH
    or MEDIUM, never LOW or INFO, a line number between 1 and the number of
    lines of the file, the path of the scanned file and no source. *)
Theorem builtin_finding_facts (file_path content : string) (v : vulnerability) :
  In v (detect_vulnerabilities file_path (Some content)) ->
  In (v_severity v) ["CRITICAL"; "HIGH"; "MEDIUM"]
  /\ (1 <= v_line v <= Z.of_nat (List.length (Text.split_lines content)))%Z
  /\ v_file v = file_path
  /\ v_source v = None.
Proof.
  intros H. apply detect_vulnerabilities_iff_left in H
    as (rule & n & line & Hrule & Hline & _ & ->).
  cbn [v_severity v_line v_file v_source].
  apply builtin_rule_types in Hrule.
  assert (Hn : n < List.length (Text.split_lines content))
    by (apply nth_error_Some; congruence).
  repeat split; try lia.
  generalize dependent (fst rule). intros t Ht. simpl in Ht.
  repeat destruct Ht as [<-|Ht]; vm_compute; tauto.
Qed.

End DetectFacts.

(** ** ModernBugPredictionGUI: analysing a file and a directory *)

Section AnalysisFacts.
Import ModernBugPredictionGUI.
Local Open Scope string_scope.
Local Open Scope list_scope.

Lemma builtin_finding_witness :
  let v := {| v_type := "Hardcoded Credentials";
              v_description := "Hardcoded password";
              v_line := 1%Z;
              v_code := Spec.password_line;
              v_severity := "CRITICAL";
              v_file := "app.py";
              v_source := None |} in
  In v (detect_vulnerabilities "app.py" (Some Spec.password_line))
  /\ In (v_severity v) ["CRITICAL"; "HIGH"; "MEDIUM"]
  /\ (1 <= v_line v <= Z.of_nat (List.length (Text.split_lines Spec.password_line)))%Z.
Proof.
  intros v.
  assert (Hin : In v (detect_vulnerabilities "app.py" (Some Spec.password_line)))
    by (vm_compute; left; reflexivity).
  split; [exact Hin|].
  destruct (builtin_finding_facts "app.py" Spec.password_line v Hin) as (H1 & H2 & _).
  split; assumption.
Defined.

Lemma detect_severity_bucket (file_path : string) (read : option string) (v : vulnerability) :
  In v (detect_vulnerabilities file_path read) ->
  In (v_severity v) ["CRITICAL"; "HIGH"; "MEDIUM"].
Proof.
  intros H. apply in_detect_vulnerabilities in H as (rule & Hrule & _ & _ & ->).
  apply builtin_rule_types in Hrule.
  generalize dependent (fst rule). intros t Ht. simpl in Ht.
  repeat destruct Ht as [<-|Ht]; vm_compute; tauto.
Qed.

Lemma filter_all {A} (f : A -> bool) (l : list A) :
  (forall x, In x l -> f x = true) -> List.filter f l = l.
Proof.
  intros H. induction l as [|x l IH]; simpl; [reflexivity|].
  rewrite (H x) by now left. f_equal. apply IH. intros y Hy. apply H. now right.
Qed.

Lemma filter_none {A} (f : A -> bool) (l : list A) :
  (forall x, In x l -> f x = false) -> List.filter f l = [].
Proof.
  intros H. induction l as [|x l IH]; simpl; [reflexivity|].
  rewrite (H x) by now left. apply IH. intros y Hy. apply H. now right.
Qed.

(** X17.  With the external tool switched off, the summary accounts for
    every entry of the result: its counts add up to the total, and the
    buckets LOW and INFO stay at 0. *)
Theorem analyze_file_builtin_only (st : settings) (file_path : string)
    (env : file_env) (db : list db_row) :
  enable_semgrep st = false ->
  let r := fst (analyze_file st file_path env db) in
  sum_values (fr_summary r) = fr_total r
  /\ fr_summary r !! "LOW" = Some 0
  /\ fr_summary r !! "INFO" = Some 0.
Proof.
  intros Hoff. unfold analyze_file. rewrite Hoff. cbn [fst fr_summary fr_total].
  set (vs := detect_vulnerabilities file_path (env_read env)).
  assert (Hsev : forall v, In v vs -> In (v_severity v) ["CRITICAL"; "HIGH"; "MEDIUM"])
    by (intros v; apply detect_severity_bucket).
  split; [|split].
  - rewrite sum_values_categorize. f_equal. apply filter_all.
    intros v Hv. apply Hsev in Hv. simpl in Hv.
    repeat destruct Hv as [<-|Hv]; try reflexivity. destruct Hv.
  - rewrite categorize_table.
    rewrite (filter_none (fun v => String.eqb (v_severity v) "LOW")); [reflexivity|].
    intros v Hv. apply Hsev in Hv. simpl in Hv.
    repeat destruct Hv as [<-|Hv]; try reflexivity. destruct Hv.
  - rewrite categorize_table.
    rewrite (filter_none (fun v => String.eqb (v_severity v) "INFO")); [reflexivity|].
    intros v Hv. apply Hsev in Hv. simpl in Hv.
    repeat destruct Hv as [<-|Hv]; try reflexivity. destruct Hv.
Qed.

Lemma analyze_file_builtin_only_witness :
  let st := {| enable_semgrep := false; selected_language := "python" |} in
  let env := {| env_read := Some Spec.password_line;
                env_semgrep := Subprocess.FileNotFound;
                env_timestamp := "2024-01-01T00:00:00";
                env_db_ok := true |} in
  let r := fst (analyze_file st "app.py" env []) in
  enable_semgrep st = false
  /\ sum_values (fr_summary r) = fr_total r.
Proof.
  intros st env r. split; [reflexivity|].
  exact (proj1 (analyze_file_builtin_only st "app.py" env [] eq_refl)).
Defined.

(** X18.  [analyze_file] stores at most one row, at the end of the table,
    and only when the database accepts it; the result returned is the same
    whether it does or not.  The total of the stored row is the sum of its
    five counts and never exceeds the total of the result. *)
Theorem analyze_file_row (st : settings) (file_path : string)
    (env : file_env) (db : list db_row) :
  let r := fst (analyze_file st file_path env db) in
  exists row,
    snd (analyze_file st file_path env db) = (if env_db_ok env then db ++ [row] else db)
    /\ row_filename row = file_path
    /\ row_results_json row = fr_vulnerabilities r
    /\ row_total_vulnerabilities row
       = row_critical_count row + row_high_count row + row_medium_count row
         + row_low_count row + row_info_count row
    /\ row_total_vulnerabilities row <= fr_total r
    /\ forall env' db',
         env_read env' = env_read env -> env_semgrep env' = env_semgrep env ->
         fst (analyze_file st file_path env' db') = r.
Proof.
  unfold analyze_file, save_analysis_result. cbn [fst snd].
  set (vs := if enable_semgrep st
             then detect_vulnerabilities file_path (env_read env)
                  ++ run_semgrep_analysis file_path (env_semgrep env)
             else detect_vulnerabilities file_path (env_read env)).
  eexists. split; [destruct (env_db_ok env); reflexivity|].
  cbn [row_filename row_results_json row_total_vulnerabilities row_critical_count
       row_high_count row_medium_count row_low_count row_info_count
       fr_vulnerabilities fr_total].
  split; [reflexivity|]. split; [reflexivity|]. split; [|split].
  - rewrite categorize_table at 1. rewrite sum_values_table.
    rewrite categorize_table. reflexivity.
  - rewrite sum_values_categorize. apply filter_length_le.
  - intros env' db' -> ->. reflexivity.
Qed.

(** The part of the walk [analyze_directory] looks at, and what it makes of
    one file. *)
Lemma analyze_file_db (st : settings) (file_path : string) (env : file_env)
    (db : list db_row) :
  analyze_file st file_path env db
  = (fst (analyze_file st file_path env []),
     db ++ snd (analyze_file st file_path env [])).
Proof.
  unfold analyze_file, save_analysis_result. cbn [fst snd].
  destruct (env_db_ok env); simpl; [reflexivity|now rewrite app_nil_r].
Qed.

Lemma analyze_directory_fold (st : settings) (walk : list walk_entry) :
  forall results db,
    fold_left (analyze_entry st) walk (results, db)
    = (results
       ++ map (fun e => fst (analyze_file st (path_join (entry_root e) (entry_file e))
                               (entry_env e) []))
              (List.filter (fun e => supported (entry_file e)) walk),
       db
       ++ flat_map (fun e => snd (analyze_file st (path_join (entry_root e) (entry_file e))
                                    (entry_env e) []))
                   (List.filter (fun e => supported (entry_file e)) walk)).
Proof.
  induction walk as [|e walk IH]; intros results db; simpl.
  - now rewrite !app_nil_r.
  - unfold analyze_entry at 2. cbn [fst snd].
    destruct (supported (entry_file e)); [|apply IH].
    rewrite analyze_file_db. rewrite IH. simpl.
    now rewrite <- !app_assoc.
Qed.

Lemma filter_idempotent {A} (f : A -> bool) (l : list A) :
  List.filter f (List.filter f l) = List.filter f l.
Proof.
  induction l as [|x l IH]; simpl; [reflexivity|].
  destruct (f x) eqn:E; simpl; [rewrite E; now f_equal|assumption].
Qed.

(** X19.  [analyze_directory] analyses the files with a supported extension
    and no other: files with another extension change neither the result
    nor the database. *)
Theorem analyze_directory_skips_unsupported (st : settings) (dir_path : string)
    (walk : list walk_entry) (db : list db_row) :
  analyze_directory st dir_path walk db
  = analyze_directory st dir_path
      (List.filter (fun e => supported (entry_file e)) walk) db.
Proof.
  unfold analyze_directory. rewrite !analyze_directory_fold.
  now rewrite filter_idempotent.
Qed.

Lemma sum_totals (st : settings) (files : list walk_entry) :
  sum_list
    (map fr_total
       (map (fun e => fst (analyze_file st (path_join (entry_root e) (entry_file e))
                             (entry_env e) [])) files))
  = List.length
      (concat
         (map fr_vulnerabilities
            (map (fun e => fst (analyze_file st (path_join (entry_root e) (entry_file e))
                                  (entry_env e) [])) files))).
Proof.
  induction files as [|e files IH]; [reflexivity|].
  cbn [map sum_list concat]. rewrite length_app, <- IH. reflexivity.
Qed.

(** X20.  [analyze_directory] counts every file with a supported extension,
    readable or not, reports them in the order of the walk under their
    joined paths, and its total is the number of entries of all the file
    results together. *)
Theorem analyze_directory_counts (st : settings) (dir_path : string)
    (walk : list walk_entry) (db : list db_row) :
  let d := fst (analyze_directory st dir_path walk db) in
  let analysed := List.filter (fun e => supported (entry_file e)) walk in
  dr_directory d = dir_path
  /\ dr_files_analyzed d = List.length analysed
  /\ map fr_file (dr_results d)
     = map (fun e => path_join (entry_root e) (entry_file e)) analysed
  /\ dr_total_vulnerabilities d
     = List.length (concat (map fr_vulnerabilities (dr_results d))).
Proof.
  unfold analyze_directory. rewrite analyze_directory_fold.
  cbn [fst dr_directory dr_files_analyzed dr_results dr_total_vulnerabilities app].
  split; [reflexivity|]. split; [|split].
  - now rewrite length_map.
  - rewrite map_map. reflexivity.
  - apply sum_totals.
Qed.

(** X21.  The database gets one row for each analysed file it accepts, after
    the rows it had, and no row for any other file. *)
Theorem analyze_directory_rows (st : settings) (dir_path : string)
    (walk : list walk_entry) (db : list db_row) :
  exists rows,
    snd (analyze_directory st dir_path walk db) = db ++ rows
    /\ map row_filename rows
       = map (fun e => path_join (entry_root e) (entry_file e))
             (List.filter (fun e => supported (entry_file e) && env_db_ok (entry_env e))
                          walk).
Proof.
  unfold analyze_directory. rewrite analyze_directory_fold. cbn [snd].
  eexists. split; [reflexivity|].
  induction walk as [|e walk IH]; [reflexivity|].
  cbn [List.filter]. destruct (supported (entry_file e)); cbn [andb]; [|exact IH].
  cbn [flat_map]. rewrite map_app, IH.
  unfold analyze_file at 1, save_analysis_result. cbn [snd].
  destruct (env_db_ok (entry_env e)); reflexivity.
Qed.

End AnalysisFacts.

(** ** ModernBugPredictionGUI: the files a directory analysis takes *)

Section ExtensionFacts.
Import ModernBugPredictionGUI.
Local Open Scope string_scope.
Local Arguments String.append !s1 s2 : simpl nomatch.

Lemma lower_char_dot (c : ascii) :
  Ascii.eqb (Text.lower_char c) "."%char = Ascii.eqb c "."%char.
Proof. destruct c as [[] [] [] [] [] [] [] []]; reflexivity. Qed.

Lemma lower_length (s : string) : String.length (Text.lower s) = String.length s.
Proof. induction s as [|c s IH]; simpl; [reflexivity|now rewrite <- IH]. Qed.

Lemma from_last_dot_lower (s : string) :
  from_last_dot (Text.lower s) = option_map Text.lower (from_last_dot s).
Proof.
  induction s as [|c s IH]; [reflexivity|].
  change (Text.lower (String c s)) with (String (Text.lower_char c) (Text.lower s)).
  cbn [from_last_dot]. rewrite IH, lower_char_dot.
  destruct (from_last_dot s); [reflexivity|].
  destruct (Ascii.eqb c "."); reflexivity.
Qed.

Lemma from_last_dot_suffix (s t : string) :
  from_last_dot s = Some t -> exists pre, s = pre ++ t.
Proof.
  revert t. induction s as [|c s IH]; intros t; cbn [from_last_dot]; [discriminate|].
  destruct (from_last_dot s) as [u|].
  - intros H. injection H as <-. destruct (IH u eq_refl) as [pre ->].
    now exists (String c pre).
  - destruct (Ascii.eqb c "."); [|discriminate].
    intros H. injection H as <-. now exists "".
Qed.

Lemma from_last_dot_app (pre s t : string) :
  from_last_dot s = Some t -> from_last_dot (pre ++ s) = Some t.
Proof.
  intros H. induction pre as [|c pre IH]; simpl; [assumption|now rewrite IH].
Qed.

Lemma mem_In (x : string) (l : list string) : mem x l = true <-> In x l.
Proof.
  unfold mem. rewrite existsb_exists. split.
  - intros (y & Hy & Heq). apply String.eqb_eq in Heq. now subst.
  - intros H. exists x. split; [assumption|apply String.eqb_refl].
Qed.

Lemma extension_shape (e : string) :
  In e supported_extensions ->
  from_last_dot e = Some e /\ 2 <= String.length e.
Proof.
  unfold supported_extensions. simpl.
  intros H. repeat destruct H as [<-|H]; try (split; [reflexivity|simpl; lia]).
  destruct H.
Qed.

(** X22.  A file is taken by the directory analysis exactly when its name
    is a non-empty stem followed by one of the nine extensions, written in
    any mix of capitals and small letters; a name that is nothing but such
    an extension is not taken. *)
Theorem supported_iff (name : string) :
  supported name = true
  <-> exists stem ext,
        name = stem ++ ext /\ stem <> "" /\ In (Text.lower ext) supported_extensions.
Proof.
  unfold supported. rewrite mem_In. split.
  - destruct name as [|c rest]; [simpl; intuition discriminate|].
    cbn [suffix]. destruct (from_last_dot rest) as [t|] eqn:E;
      [|simpl; intuition discriminate].
    destruct (String.length t =? 1)%nat; [simpl; intuition discriminate|].
    intros Hin. apply from_last_dot_suffix in E as [pre ->].
    exists (String c pre), t. repeat split; [discriminate|assumption].
  - intros (stem & ext & -> & Hstem & Hin).
    destruct stem as [|c pre]; [contradiction|].
    destruct (extension_shape _ Hin) as [Hdot Hlen].
    rewrite from_last_dot_lower in Hdot.
    destruct (from_last_dot ext) as [t|] eqn:E; [|discriminate].
    simpl in Hdot. injection Hdot as Hlower.
    pose proof E as Hsuffix. apply from_last_dot_suffix in Hsuffix as [pre' Hext].
    assert (Hpre : pre' = "").
    { apply (f_equal String.length) in Hext, Hlower.
      rewrite length_append in Hext. rewrite !lower_length in Hlower.
      destruct pre'; [reflexivity|simpl in Hext; lia]. }
    subst pre'. simpl in Hext. subst t.
    simpl. rewrite (from_last_dot_app pre ext ext E).
    rewrite lower_length in Hlen.
    destruct (String.length ext =? 1)%nat eqn:E1;
      [apply Nat.eqb_eq in E1; lia|assumption].
Qed.

End ExtensionFacts.

(** ** SemgrepAnalyzer and EnhancedSemgrepAnalyzer: running the tool *)

Section ToolFacts.
Import Subprocess EnhancedSemgrepAnalyzer.
Local Open Scope string_scope.
Local Open Scope list_scope.

Lemma semgrep_run_returns (o : run_outcome) (file_path language : string) (fs : files) :
  exists findings,
    SemgrepAnalyzer.run_semgrep_analysis o file_path language fs = (Returned findings, fs).
Proof.
  unfold SemgrepAnalyzer.run_semgrep_analysis, SemgrepAnalyzer.subprocess_run,
    try_except, bind, ret, raise.
  destruct o as [| | |rc out]; simpl; try (eexists; reflexivity).
  destruct (rc =? 0)%Z; [|eexists; reflexivity].
  destruct out as [| |[results|]]; simpl; eexists; reflexivity.
Qed.

(** X23.  [SemgrepAnalyzer.run_semgrep_analysis] never raises and touches
    no file: when the tool exits with code 0 and prints a JSON object with
    results it returns exactly those results, and in every other case (a
    missing tool, a timeout, any other exception, another exit code,
    output that is not JSON, JSON that is not an object or has no results)
    it returns the empty list. *)
Theorem run_semgrep_analysis_total (o : run_outcome) (file_path language : string)
    (fs : files) :
  SemgrepAnalyzer.run_semgrep_analysis o file_path language fs
  = (Returned match o with
              | Completed 0 (JsonObject (Some results)) => results
              | _ => []
              end,
     fs).
Proof.
  unfold SemgrepAnalyzer.run_semgrep_analysis, SemgrepAnalyzer.subprocess_run,
    try_except, bind, ret, raise.
  destruct o as [| | |rc out]; simpl; try reflexivity.
  destruct rc as [|rc|rc]; simpl; try reflexivity.
  destruct out as [| |[results|]]; reflexivity.
Qed.

(** X24.  [SemgrepAnalyzer.analyze_code] runs the analysis only when the
    version check of the tool completes with exit code 0; when the check
    fails in any way it returns the empty list without raising. *)
Theorem analyze_code_checks_first (version o : run_outcome)
    (file_path language : string) (fs : files) :
  SemgrepAnalyzer.analyze_code version o file_path language fs
  = match version with
    | Completed 0 _ => SemgrepAnalyzer.run_semgrep_analysis o file_path language fs
    | _ => (Returned [], fs)
    end.
Proof.
  destruct (semgrep_run_returns o file_path language fs) as (findings & Hrun).
  unfold SemgrepAnalyzer.analyze_code, SemgrepAnalyzer.check_semgrep_installation,
    SemgrepAnalyzer.subprocess_run, try_except, bind, ret, raise.
  destruct version as [| | |rc out]; simpl; try reflexivity.
  destruct rc as [|rc|rc]; simpl; try reflexivity.
  rewrite Hrun. reflexivity.
Qed.

Lemma custom_rules_result (w : world) (file_path language : string) (fs fs' : files) :
  Spec.rules_file_written w ->
  fst (analyze_with_custom_rules w file_path fs)
  = fst (SemgrepAnalyzer.run_semgrep_analysis (run w) file_path language fs').
Proof.
  intros (Hcreate & Himport & Hdump & Hclose).
  unfold SemgrepAnalyzer.run_semgrep_analysis, SemgrepAnalyzer.subprocess_run,
    analyze_with_custom_rules, create_custom_rules_file, bind,
    named_temporary_file, import_yaml, yaml_dump, close, try_finally,
    try_except, subprocess_run, os_unlink, ret, raise.
  rewrite Hcreate, Himport, Hdump, Hclose.
  destruct (run w) as [| | |rc out]; simpl; try (destruct (unlink_ok w); reflexivity).
  destruct (rc =? 0)%Z; [|destruct (unlink_ok w); reflexivity].
  destruct out as [| |[results|]]; simpl; destruct (unlink_ok w); reflexivity.
Qed.

(** X25.  Once its rules file is written, [analyze_with_custom_rules]
    treats the outcomes of the tool exactly as
    [SemgrepAnalyzer.run_semgrep_analysis] does: the same findings for the
    same behaviour of the tool, and never an exception. *)
Theorem custom_rules_same_findings (w : world) (file_path language : string)
    (fs fs' : files) :
  Spec.rules_file_written w ->
  fst (analyze_with_custom_rules w file_path fs)
  = fst (SemgrepAnalyzer.run_semgrep_analysis (run w) file_path language fs')
  /\ exists findings, fst (analyze_with_custom_rules w file_path fs) = Returned findings.
Proof.
  intros Hw. split; [now apply custom_rules_result|].
  destruct (analyze_after_rules_written w file_path fs Hw) as (findings & -> & _).
  now exists findings.
Qed.

Lemma custom_rules_same_findings_witness :
  let w := {| tmp_name := "/tmp/tmpk3x9.yaml";
              tmp_create_ok := true; yaml_import_ok := true;
              yaml_dump_ok := true; close_ok := true;
              run := Completed 0 (JsonObject (Some [Spec.reported_error_upper]));
              unlink_ok := true |} in
  Spec.rules_file_written w
  /\ fst (analyze_with_custom_rules w "app.py" ∅)
     = fst (SemgrepAnalyzer.run_semgrep_analysis (run w) "app.py" "python" ∅).
Proof.
  intros w.
  assert (Hw : Spec.rules_file_written w) by (repeat split).
  split; [exact Hw|].
  exact (proj1 (custom_rules_same_findings w "app.py" "python" ∅ ∅ Hw)).
Defined.

(** X26.  [analyze_with_custom_rules] raises exactly when its rules file
    cannot be written: when the temporary file cannot be created, yaml
    cannot be imported, or the rules cannot be dumped or flushed. *)
Theorem custom_rules_raises_iff (w : world) (file_path : string) (fs : files) :
  (exists e, fst (analyze_with_custom_rules w file_path fs) = Raised e)
  <-> ~ Spec.rules_file_written w.
Proof.
  split.
  - intros [e He] Hw.
    destruct (analyze_after_rules_written w file_path fs Hw) as (findings & Heq & _).
    rewrite Heq in He. discriminate.
  - apply analyze_raises_unless_rules_written.
Qed.

Lemma create_failure_files (w : world) (file_path : string) (fs : files) :
  ~ Spec.rules_file_written w ->
  snd (analyze_with_custom_rules w file_path fs)
  = if tmp_create_ok w then {[tmp_name w]} ∪ fs else fs.
Proof.
  unfold Spec.rules_file_written, analyze_with_custom_rules,
    create_custom_rules_file, bind, named_temporary_file, import_yaml,
    yaml_dump, close, ret, raise.
  intros Hnot.
  destruct (tmp_create_ok w); [|reflexivity].
  destruct (yaml_import_ok w); [|reflexivity].
  destruct (yaml_dump_ok w); [|reflexivity].
  destruct (close_ok w); [|reflexivity].
  exfalso. apply Hnot. repeat split.
Qed.

Ltac elem_of_files :=
  rewrite ?elem_of_difference, ?elem_of_union, ?elem_of_singleton.

(** X27.  What becomes of the files.  No file other than the temporary
    rules file is created or removed.  The temporary file is left behind
    exactly when it was created and either the rules could not be written
    into it or it could not be removed. *)
Theorem temporary_file_fate (w : world) (file_path : string) (fs : files) :
  tmp_name w ∉ fs ->
  (forall path, path <> tmp_name w ->
                (path ∈ snd (analyze_with_custom_rules w file_path fs) <-> path ∈ fs))
  /\ (tmp_name w ∈ snd (analyze_with_custom_rules w file_path fs)
      <-> tmp_create_ok w = true
          /\ ~ (Spec.rules_file_written w /\ unlink_ok w = true)).
Proof.
  intros Hfresh.
  assert (Hdec : Spec.rules_file_written w \/ ~ Spec.rules_file_written w).
  { unfold Spec.rules_file_written.
    destruct (tmp_create_ok w), (yaml_import_ok w), (yaml_dump_ok w), (close_ok w);
      intuition discriminate. }
  destruct Hdec as [Hw|Hnot].
  - destruct (analyze_after_rules_written w file_path fs Hw) as (findings & -> & _).
    cbn [snd]. pose proof Hw as (Hcreate & _).
    destruct (unlink_ok w); split.
    + intros path Hpath. elem_of_files. tauto.
    + elem_of_files. split; [tauto|]. intros [_ H]. exfalso. apply H. now split.
    + intros path Hpath. elem_of_files. tauto.
    + elem_of_files. split; [|tauto].
      intros _. split; [assumption|]. intros [_ H]. discriminate.
  - rewrite (create_failure_files w file_path fs Hnot).
    destruct (tmp_create_ok w); split.
    + intros path Hpath. elem_of_files. tauto.
    + elem_of_files. split; [|tauto].
      intros _. split; [reflexivity|]. intros [H _]. contradiction.
    + intros path Hpath. reflexivity.
    + split; [contradiction|]. intros [H _]. discriminate.
Qed.

Lemma temporary_file_fate_witness :
  (tmp_name Spec.world_without_yaml ∉ (∅ : files))
  /\ (tmp_name Spec.world_without_yaml
      ∈ snd (analyze_with_custom_rules Spec.world_without_yaml "app.py" ∅)).
Proof.
  assert (Hfresh : tmp_name Spec.world_without_yaml ∉ (∅ : files))
    by apply not_elem_of_empty.
  split; [exact Hfresh|].
  apply (proj2 (temporary_file_fate Spec.world_without_yaml "app.py" ∅ Hfresh)).
  split; [reflexivity|]. intros [(_ & H & _) _]. discriminate H.
Defined.

End ToolFacts.

(** ** EnhancedSemgrepAnalyzer: the custom rules and their descriptions *)

Section RuleFacts.
Import EnhancedSemgrepAnalyzer.
Local Open Scope string_scope.

Lemma custom_rule_ids :
  map rule_id rules_content
  = ["sql-injection-detection"; "hardcoded-credentials"; "command-injection";
     "path-traversal"; "weak-cryptography"; "unsafe-deserialization"].
Proof. reflexivity. Qed.

(** X28.  The table of descriptions has an entry for exactly the
    identifiers of the custom rules: every custom rule gets its own
    description, the identifiers of the rules are pairwise different, and
    any other identifier gets the generic description. *)
Theorem descriptions_cover_custom_rules :
  (forall r, In r rules_content ->
             is_Some (vulnerability_info !! rule_id r)
             /\ get_vulnerability_details (rule_id r) <> generic_details)
  /\ NoDup (map rule_id rules_content)
  /\ (forall id, ~ In id (map rule_id rules_content) ->
                 get_vulnerability_details id = generic_details).
Proof.
  split; [|split].
  - intros r Hr. apply (in_map rule_id) in Hr. rewrite custom_rule_ids in Hr.
    generalize dependent (rule_id r). intros id Hid. simpl in Hid.
    destruct Hid as [<-|[<-|[<-|[<-|[<-|[<-|[]]]]]]];
      (split; [eexists; vm_compute; reflexivity|vm_compute; discriminate]).
  - rewrite custom_rule_ids. apply NoDup_ListNoDup.
    repeat (constructor; [simpl; intros H; repeat destruct H as [H|H]; discriminate||exact H|]).
    constructor.
  - rewrite custom_rule_ids. simpl. intros id Hnot.
    unfold get_vulnerability_details, vulnerability_info. simpl list_to_map.
    rewrite !lookup_insert_ne by (intros <-; apply Hnot; tauto).
    now rewrite lookup_empty.
Qed.

Lemma descriptions_cover_custom_rules_witness :
  get_vulnerability_details "hardcoded-credentials" <> generic_details
  /\ get_vulnerability_details "hardcoded_secrets" = generic_details.
Proof.
  destruct descriptions_cover_custom_rules as (Hown & _ & Hother).
  split.
  - apply (Hown (snd (nth 1 custom_rules (hd ("", Build_rule "" "" "" [] []) custom_rules)))).
    vm_compute. right. left. reflexivity.
  - apply Hother. rewrite custom_rule_ids. simpl.
    intros H. repeat destruct H as [H|H]; try discriminate H. exact H.
Defined.

Lemma custom_rule_severities (r : rule) :
  In r rules_content -> rule_severity r = "ERROR" \/ rule_severity r = "WARNING".
Proof.
  intros Hr. apply (in_map rule_severity) in Hr.
  revert Hr. generalize (rule_severity r). intros s.
  let sevs := eval vm_compute in (map rule_severity rules_content) in
  change (map rule_severity rules_content) with sevs.
  simpl. intuition.
Qed.

(** X29.  Every custom rule has a severity the risk score counts: a finding
    reported with the severity of a custom rule raises the external part of
    the score by 0.3 or 0.2, that is the score of that finding alone is
    0.03 or 0.02. *)
Theorem custom_rule_findings_count (r : rule) (finding : Semgrep.result) :
  In r rules_content ->
  Semgrep.get_extra_severity finding = Some (rule_severity r) ->
  (AIBugPredictor.generate_risk_score [finding] [] == 0.03
   \/ AIBugPredictor.generate_risk_score [finding] [] == 0.02)%Q.
Proof.
  intros Hr Hsev.
  unfold AIBugPredictor.generate_risk_score, AIBugPredictor.count_severity,
    AIBugPredictor.Qsum.
  cbn [List.filter map fold_left].
  rewrite Hsev.
  destruct (custom_rule_severities r Hr) as [-> | ->]; [left|right];
    vm_compute; reflexivity.
Qed.

Lemma custom_rule_findings_count_witness :
  let r := {| rule_id := "weak-cryptography";
              rule_message := "Weak cryptographic algorithm detected";
              rule_severity := "WARNING";
              rule_languages := ["python"];
              rule_pattern_either :=
                ["hashlib.md5(...)"; "hashlib.sha1(...)"; "random.randint(...)"] |} in
  let finding := {| Semgrep.check_id := Some "weak-cryptography";
                    Semgrep.start := None;
                    Semgrep.extra := Some {| Semgrep.message := None;
                                             Semgrep.severity := Some "WARNING";
                                             Semgrep.lines := None |} |} in
  In r rules_content
  /\ (AIBugPredictor.generate_risk_score [finding] [] == 0.03
      \/ AIBugPredictor.generate_risk_score [finding] [] == 0.02)%Q.
Proof.
  intros r finding.
  assert (Hr : In r rules_content) by (vm_compute; tauto).
  split; [exact Hr|].
  exact (custom_rule_findings_count r finding Hr eq_refl).
Defined.

End RuleFacts.
